(** * runkeeper.py: the session manager and the lazily populated activity record

    A shallow embedding of [runkeeper.py].  The two classes of the module,
    [Runkeeper] and [Activity], are Python objects with mutable private
    fields; their methods raise exceptions and talk to a remote web site
    through one shared [requests.Session].  The embedding keeps all three
    effects explicit:

    - mutable fields live in records that are threaded through a state
      monad;
    - an exception is a value of [exn]; a raised exception keeps the state
      reached so far, as a Python exception does not undo assignments;
    - the remote site is a function [server] from the number of requests
      already issued and the request to an outcome, so that the site may
      answer the same request differently at different times.

    Library code (json, BeautifulSoup, requests, datetime.strptime) is not
    part of the module; a response is modelled by what those libraries make
    of its body. *)

From Stdlib Require Import String Ascii List ZArith Lia Bool Arith.
From Stdlib Require Import SpecFloat DecimalString.
Import ListNotations.
Open Scope list_scope.
Open Scope string_scope.

Set Implicit Arguments.
Set Warnings "-register-all".

(** ** Exceptions *)

(** The six exception classes imported from [runkeeperExceptions] (with the
    module's own spelling of [InvalidAuhentication]), the exceptions of the
    libraries ([requests] when the transport fails, its cookie jar when two
    cookies answer to one name, BeautifulSoup when the parser rejects the
    markup), and the builtin exceptions the module's expressions can
    raise. *)
Inductive exn : Type :=
| EndpointConnectionError
| InvalidAuhentication
| NoActivityInMonth
| ProfileNotFound
| InvalidActivityId
| NoActivitiesFound
| RequestException
| CookieConflictError
| ParserRejectedMarkup
| AttributeError
| KeyError
| IndexError
| TypeError
| ValueError.

Definition exn_eq_dec (a b : exn) : {a = b} + {a <> b}.
Proof. decide equality. Defined.

(** ** A state monad whose failures keep the state *)

Inductive result (A : Type) : Type :=
| Ok (a : A)
| Raise (e : exn).
Arguments Raise {A} e.

Definition M (S A : Type) : Type := S -> result A * S.

Definition ret {S A} (a : A) : M S A := fun s => (Ok a, s).

Definition raise {S A} (e : exn) : M S A := fun s => (Raise e, s).

Definition bind {S A B} (m : M S A) (k : A -> M S B) : M S B :=
  fun s =>
    match m s with
    | (Ok a, s') => k a s'
    | (Raise e, s') => (Raise e, s')
    end.

Definition get {S} : M S S := fun s => (Ok s, s).

Definition modify {S} (f : S -> S) : M S unit := fun s => (Ok tt, f s).

(** [try: m  except: raise e] *)
Definition try_except_all {S A} (m : M S A) (e : exn) : M S A :=
  fun s =>
    match m s with
    | (Ok a, s') => (Ok a, s')
    | (Raise _, s') => (Raise e, s')
    end.

(** [try: m  except c: raise e] *)
Definition try_except {S A} (m : M S A) (c e : exn) : M S A :=
  fun s =>
    match m s with
    | (Ok a, s') => (Ok a, s')
    | (Raise x, s') => (Raise (if exn_eq_dec x c then e else x), s')
    end.

(** Running a computation on a component [get_t s] of a larger state. *)
Definition zoom {S T A} (get_t : S -> T) (set_t : T -> S -> S)
  (m : M T A) : M S A :=
  fun s => let (r, t') := m (get_t s) in (r, set_t t' s).

(** A pure expression that may raise. *)
Definition lift {S A} (r : result A) : M S A := fun s => (r, s).

Declare Scope monad_scope.
Delimit Scope monad_scope with monad.
Notation "x <- m ;; k" := (bind m (fun x => k))
  (at level 61, m at next level, right associativity) : monad_scope.
Notation "m ;; k" := (bind m (fun _ => k))
  (at level 61, right associativity) : monad_scope.
Open Scope monad_scope.

(** [[f(x) for x in xs]], left to right, stopping at the first exception. *)
Fixpoint mapM {S A B} (f : A -> M S B) (xs : list A) : M S (list B) :=
  match xs with
  | [] => ret []
  | x :: xs' => y <- f x ;; ys <- mapM f xs' ;; ret (y :: ys)
  end.

(** ** Python values *)

(** [datetime.datetime], naive, microsecond 0. *)
Record DateTime : Type := mkDateTime {
  year : Z; month : Z; day : Z; hour : Z; minute : Z; second : Z
}.

(** The objects the fields of an [Activity] hold: what [json.loads] returns
    (all constructors but the last) and the [datetime] that [strptime]
    returns.  [PyNone] is both JSON's [null] and the [None] the caches are
    initialised with.  A dict is kept as an association list in insertion
    order; [dict_lookup] takes the first binding of a key. *)
Inductive value : Type :=
| PyNone
| PyBool (b : bool)
| PyInt (z : Z)
| PyFloat (f : spec_float)
| PyStr (s : string)
| PyList (vs : list value)
| PyDict (kvs : list (string * value))
| PyDateTime (d : DateTime).

Definition dict (A : Type) : Type := list (string * A).

Fixpoint dict_lookup {A} (k : string) (d : dict A) : option A :=
  match d with
  | [] => None
  | (k', v) :: d' => if String.eqb k k' then Some v else dict_lookup k d'
  end.

(** [d[k] = v] *)
Fixpoint dict_set {A} (k : string) (v : A) (d : dict A) : dict A :=
  match d with
  | [] => [(k, v)]
  | (k', v') :: d' =>
      if String.eqb k k' then (k, v) :: d' else (k', v') :: dict_set k v d'
  end.

(** [d.update(e)]; of two bindings of a key in [e] the first, which is the
    one [dict_lookup] sees, is the one that stays. *)
Definition dict_update {A} (d e : dict A) : dict A :=
  fold_right (fun kv acc => dict_set (fst kv) (snd kv) acc) d e.

(** Python truthiness, as tested by [not x] and [x or y]. *)
Definition truthy (v : value) : bool :=
  match v with
  | PyNone => false
  | PyBool b => b
  | PyInt z => negb (Z.eqb z 0)
  | PyFloat (S754_zero _) => false
  | PyFloat _ => true
  | PyStr s => negb (String.eqb s "")
  | PyList vs => match vs with [] => false | _ => true end
  | PyDict kvs => match kvs with [] => false | _ => true end
  | PyDateTime _ => true
  end.

Definition str_truthy (s : string) : bool := negb (String.eqb s "").

(** [d.get(k)] on a dict: [None] for a missing key. *)
Definition dict_get (kvs : dict value) (k : string) : value :=
  match dict_lookup k kvs with
  | Some x => x
  | None => PyNone
  end.

(** [v.get(k)]: only a dict has the method. *)
Definition py_get (v : value) (k : string) : result value :=
  match v with
  | PyDict kvs => Ok (dict_get kvs k)
  | _ => Raise AttributeError
  end.

(** [v[k]] for a string [k]. *)
Definition py_index (v : value) (k : string) : result value :=
  match v with
  | PyDict kvs =>
      match dict_lookup k kvs with
      | Some x => Ok x
      | None => Raise KeyError
      end
  | _ => Raise TypeError
  end.

Definition chars (s : string) : list value :=
  map (fun c => PyStr (String c EmptyString)) (list_ascii_of_string s).

(** [for x in v]: the elements of a list, the keys of a dict, the
    characters of a string. *)
Definition py_iter (v : value) : result (list value) :=
  match v with
  | PyList vs => Ok vs
  | PyDict kvs => Ok (map (fun kv => PyStr (fst kv)) kvs)
  | PyStr s => Ok (chars s)
  | _ => Raise TypeError
  end.

(** ** Strings *)

Definition is_alpha (c : ascii) : bool :=
  let n := nat_of_ascii c in
  (((65 <=? n) && (n <=? 90)) || ((97 <=? n) && (n <=? 122)))%nat.

Definition is_digit (c : ascii) : bool :=
  let n := nat_of_ascii c in ((48 <=? n) && (n <=? 57))%nat.

(** [str.isspace] on one ASCII character; strings are taken as ASCII
    throughout. *)
Definition is_space (c : ascii) : bool :=
  let n := nat_of_ascii c in
  (((9 <=? n) && (n <=? 13)) || ((28 <=? n) && (n <=? 32)))%nat.

(** [s.split(sep)] for a one-character separator: never empty. *)
Fixpoint split (sep : ascii) (s : string) : list string :=
  match s with
  | EmptyString => [EmptyString]
  | String c r =>
      if Ascii.eqb c sep then EmptyString :: split sep r
      else match split sep r with
           | [] => [String c EmptyString]
           | w :: ws => String c w :: ws
           end
  end.

(** [s.rstrip()] *)
Fixpoint rstrip (s : string) : string :=
  match s with
  | EmptyString => EmptyString
  | String c r =>
      match rstrip r with
      | EmptyString => if is_space c then EmptyString else String c EmptyString
      | r' => String c r'
      end
  end.

(** [''.join(ss)] *)
Definition join (ss : list string) : string := String.concat "" ss.

(** [xs[i]] *)
Definition list_index {A} (xs : list A) (i : nat) : result A :=
  match nth_error xs i with
  | Some x => Ok x
  | None => Raise IndexError
  end.

(** [str(z)] for an int. *)
Definition str_of_Z (z : Z) : string :=
  DecimalString.NilZero.string_of_int (Z.to_int z).

(** [re.compile('/user/[a-zA-Z]|[0-9]/profile')]: the pattern is an
    alternation of ["/user/" letter] and [digit "/profile"].
    [profile_re_at s] is a match at the start of [s], [profile_re_search]
    a match anywhere, which is how BeautifulSoup applies a compiled pattern
    to an attribute value. *)
Definition profile_re_at (s : string) : bool :=
  (String.prefix "/user/" s &&
     match String.get 6 s with Some c => is_alpha c | None => false end)
  || match s with
     | String c r => is_digit c && String.prefix "/profile" r
     | EmptyString => false
     end.

Fixpoint profile_re_search (s : string) : bool :=
  profile_re_at s ||
  match s with
  | EmptyString => false
  | String _ r => profile_re_search r
  end.

(** ** The remote site as seen through the libraries *)

Inductive method : Type := GET | POST.

(** What [Session.get] and [Session.post] send: the URL, the [params] and
    [data] keyword arguments, and the cookies of the session's jar. *)
Record Request : Type := mkRequest {
  meth : method;
  url : string;
  params : dict value;
  data : dict string;
  sent_cookies : dict string
}.

(** An [<input type="hidden">] element: its [name] and [value] attributes,
    when present. *)
Record hidden_input : Type := mkHidden {
  attr_name : option string;
  attr_value : option string
}.

(** A child of an element: a [NavigableString] (a [str]) or a nested tag.
    A tag has no method [split]: BeautifulSoup reads [tag.split] as
    [tag.find('split')], the first element named [split] inside the tag or
    [None].  All the module asks of a nested tag is that, so a tag is kept
    as [split_inside], whether it has such an element inside. *)
Inductive node : Type :=
| NavigableString (s : string)
| Tag (split_inside : bool).

(** The document [BeautifulSoup(text, "html.parser")] returns, by what the
    module asks of it:
    - [hidden_inputs]: [soup.find_all('input', {'type': 'hidden'})];
    - [anchors]: the [href] of every [a] element that has one, in document
      order ([soup.find('a', {'href': pattern})] is the first that matches);
    - [subtitle]: the children of
      [soup.find('div', {'class': 'micro-text activitySubTitle'})], [None]
      when there is no such element. *)
Record Soup : Type := mkSoup {
  hidden_inputs : list hidden_input;
  anchors : list string;
  subtitle : option (list node)
}.

(** A response, by what the module asks of it:
    - [cookies]: the cookies of [response.cookies], name and value; two
      cookies of one name differ in domain or path;
    - [json]: [json.loads(response.text)], [None] when it raises;
    - [soup]: [BeautifulSoup(response.text, "html.parser")], [None] when
      the parser rejects the markup and the constructor raises. *)
Record Response : Type := mkResponse {
  cookies : list (string * string);
  json : option value;
  soup : option Soup
}.

(** [bfs(response.text, "html.parser")] *)
Definition bfs (r : Response) : result Soup :=
  match soup r with
  | Some document => Ok document
  | None => Raise ParserRejectedMarkup
  end.

(** A response whose body parses as HTML. *)
Definition parsed (c : list (string * string)) (j : option value)
  (h : list hidden_input) (a : list string) (s : option (list node))
  : Response :=
  mkResponse c j (Some (mkSoup h a s)).

(** [jar.get(name)] of [requests]: the value of the one cookie of that
    name; [None] when there is none or its value is empty; two cookies of
    that name raise [CookieConflictError]. *)
Definition cookies_named (name : string) (jar : list (string * string))
  : list (string * string) :=
  filter (fun c => String.eqb (fst c) name) jar.

Definition cookies_get (jar : list (string * string)) (name : string)
  : result (option string) :=
  match cookies_named name jar with
  | [] => Ok None
  | [(_, v)] => Ok (if str_truthy v then Some v else None)
  | _ :: _ :: _ => Raise CookieConflictError
  end.

(** What the program gets from outside itself:
    - [server n r]: the outcome of request [r] when [n] requests have been
      issued before it in the session; [None] is a transport failure;
    - [today_year]: [datetime.today().year];
    - [tzname]: the lower-case time zone names of the local zone, which
      [strptime] accepts for [%Z] besides [utc] and [gmt];
    - [repr]: the builtin [repr], used by [str] on floats and containers. *)
Record Env : Type := mkEnv {
  server : nat -> Request -> option Response;
  today_year : Z;
  tzname : list string;
  repr : value -> string
}.

(** [str(v)], which is what ["{x}".format(x=v)] inserts. *)
Definition py_str (env : Env) (v : value) : string :=
  match v with
  | PyNone => "None"
  | PyBool true => "True"
  | PyBool false => "False"
  | PyInt z => str_of_Z z
  | PyStr s => s
  | _ => repr env v
  end.

(** ** [datetime.strptime(s, '%a %b %d %H:%M:%S %Z %Y')]

    [strptime] turns the format into a regular expression, matched
    case-insensitively against the whole string: a space of the format is
    [\s+], [%a] and [%b] are the abbreviated day and month names (those of
    the C locale here), [%d] is [3[0-1]|[1-2]\d|0[1-9]|[1-9]| [1-9]], [%H]
    is [2[0-3]|[0-1]\d|\d], [%M] is [[0-5]\d|\d], [%S] is
    [6[0-1]|[0-5]\d|\d], [%Z] is one of the zone names and [%Y] is
    [\d\d\d\d].  In this format every numeric field is followed by [:], by
    [\s+] or by the end of the string, none of which matches a digit, so
    trying the alternatives of a field in order and committing to the first
    that matches gives what the backtracking matcher gives.  The day name
    and the zone are matched and dropped ([strptime] does not compare the
    day name with the date); the six numbers go to the [datetime]
    constructor, which checks them. *)

Definition lower (c : ascii) : ascii :=
  let n := nat_of_ascii c in
  if ((65 <=? n) && (n <=? 90))%nat then ascii_of_nat (n + 32) else c.

(** [p] is a prefix of [s] up to case: the rest of [s]. *)
Fixpoint strip_prefix_ci (p s : string) : option string :=
  match p, s with
  | EmptyString, _ => Some s
  | String a p', String b s' =>
      if Ascii.eqb (lower a) (lower b) then strip_prefix_ci p' s' else None
  | String _ _, EmptyString => None
  end.

(** The first of [names] that starts [s]: its 1-based position and the rest. *)
Fixpoint parse_name (names : list string) (i : Z) (s : string)
  : option (Z * string) :=
  match names with
  | [] => None
  | n :: ns =>
      match strip_prefix_ci n s with
      | Some r => Some (i, r)
      | None => parse_name ns (i + 1)%Z s
      end
  end.

Definition a_weekday : list string :=
  ["mon"; "tue"; "wed"; "thu"; "fri"; "sat"; "sun"].

Definition a_month : list string :=
  ["jan"; "feb"; "mar"; "apr"; "may"; "jun";
   "jul"; "aug"; "sep"; "oct"; "nov"; "dec"].

Definition digit_val (c : ascii) : option Z :=
  if is_digit c then Some (Z.of_nat (nat_of_ascii c) - 48)%Z else None.

(** A field of one or two digits: [ok2 a b] are the two-digit alternatives,
    tried first, [ok1 a] the one-digit alternative. *)
Definition parse_field (ok2 : Z -> Z -> bool) (ok1 : Z -> bool) (s : string)
  : option (Z * string) :=
  match s with
  | EmptyString => None
  | String c r =>
      match digit_val c with
      | None => None
      | Some a =>
          let one := if ok1 a then Some (a, r) else None in
          match r with
          | EmptyString => one
          | String c' r' =>
              match digit_val c' with
              | Some b => if ok2 a b then Some (10 * a + b, r')%Z else one
              | None => one
              end
          end
      end
  end.

Definition parse_d : string -> option (Z * string) :=
  parse_field
    (fun a b => ((a =? 3) && (b <=? 1)) || ((1 <=? a) && (a <=? 2))
                || ((a =? 0) && (1 <=? b)))%Z
    (fun a => (1 <=? a)%Z).

Definition parse_H : string -> option (Z * string) :=
  parse_field (fun a b => ((a =? 2) && (b <=? 3)) || (a <=? 1))%Z
              (fun _ => true).

Definition parse_M : string -> option (Z * string) :=
  parse_field (fun a _ => (a <=? 5)%Z) (fun _ => true).

Definition parse_S : string -> option (Z * string) :=
  parse_field (fun a b => ((a =? 6) && (b <=? 1)) || (a <=? 5))%Z
              (fun _ => true).

(** [\d\d\d\d] *)
Definition parse_Y (s : string) : option (Z * string) :=
  match s with
  | String c1 (String c2 (String c3 (String c4 r))) =>
      match digit_val c1, digit_val c2, digit_val c3, digit_val c4 with
      | Some a, Some b, Some c, Some d =>
          Some (1000 * a + 100 * b + 10 * c + d, r)%Z
      | _, _, _, _ => None
      end
  | _ => None
  end.

Fixpoint skip_spaces (s : string) : string :=
  match s with
  | String c r => if is_space c then skip_spaces r else s
  | EmptyString => s
  end.

(** [\s+] *)
Definition parse_spaces (s : string) : option string :=
  match s with
  | String c r => if is_space c then Some (skip_spaces r) else None
  | EmptyString => None
  end.

(** A literal character of the format. *)
Definition parse_char (c : ascii) (s : string) : option string :=
  match s with
  | String c' r => if Ascii.eqb c c' then Some r else None
  | EmptyString => None
  end.

(** [\s+%Y] and the end of the string. *)
Definition parse_year_tail (s : string) : option Z :=
  match parse_spaces s with
  | None => None
  | Some s1 =>
      match parse_Y s1 with
      | Some (y, EmptyString) => Some y
      | _ => None
      end
  end.

(** [%Z \s+ %Y]: the first zone name after which the rest matches. *)
Fixpoint parse_zone_tail (zones : list string) (s : string) : option Z :=
  match zones with
  | [] => None
  | z :: zs =>
      match strip_prefix_ci z s with
      | Some r =>
          match parse_year_tail r with
          | Some y => Some y
          | None => parse_zone_tail zs s
          end
      | None => parse_zone_tail zs s
      end
  end.

Definition is_leap (y : Z) : bool :=
  ((y mod 4 =? 0) && (negb (y mod 100 =? 0) || (y mod 400 =? 0)))%Z.

Definition days_in_month (y m : Z) : Z :=
  (if m =? 2 then (if is_leap y then 29 else 28)
   else if (m =? 4) || (m =? 6) || (m =? 9) || (m =? 11) then 30
   else 31)%Z.

(** [datetime(y, m, d, H, M, S)] *)
Definition make_datetime (y m d H Mi Se : Z) : result DateTime :=
  if ((1 <=? y) && (y <=? 9999) && (1 <=? m) && (m <=? 12)
      && (1 <=? d) && (d <=? days_in_month y m)
      && (0 <=? H) && (H <=? 23) && (0 <=? Mi) && (Mi <=? 59)
      && (0 <=? Se) && (Se <=? 59))%Z
  then Ok (mkDateTime y m d H Mi Se)
  else Raise ValueError.

Definition opt_bind {A B} (o : option A) (k : A -> option B) : option B :=
  match o with
  | Some a => k a
  | None => None
  end.

Definition strptime (env : Env) (s : string) : result DateTime :=
  let fields :=
    opt_bind (parse_name a_weekday 1 s) (fun '(_, s) =>
    opt_bind (parse_spaces s) (fun s =>
    opt_bind (parse_name a_month 1 s) (fun '(m, s) =>
    opt_bind (parse_spaces s) (fun s =>
    opt_bind (parse_d s) (fun '(d, s) =>
    opt_bind (parse_spaces s) (fun s =>
    opt_bind (parse_H s) (fun '(H, s) =>
    opt_bind (parse_char ":" s) (fun s =>
    opt_bind (parse_M s) (fun '(Mi, s) =>
    opt_bind (parse_char ":" s) (fun s =>
    opt_bind (parse_S s) (fun '(Se, s) =>
    opt_bind (parse_spaces s) (fun s =>
    opt_bind (parse_zone_tail ("utc" :: "gmt" :: tzname env) s) (fun y =>
    Some (y, m, d, H, Mi, Se))))))))))))))
  in
  match fields with
  | Some (y, m, d, H, Mi, Se) => make_datetime y m d H Mi Se
  | None => Raise ValueError
  end.

(** ** The session *)

(** [requests.Session]: the cookie jar, and the requests issued so far, in
    order (a request is recorded whether or not the transport delivers it). *)
Record Session : Type := mkSession {
  jar : dict string;
  sent : list Request
}.

(** ** class Runkeeper *)

Record Runkeeper : Type := mkRunkeeper {
  email : string;
  password : string;
  session : Session;
  site : string;
  __profile_username : string
}.

Definition set_session (s : Session) (rk : Runkeeper) : Runkeeper :=
  mkRunkeeper (email rk) (password rk) s (site rk) (__profile_username rk).

Definition set___profile_username (u : string) (rk : Runkeeper) : Runkeeper :=
  mkRunkeeper (email rk) (password rk) (session rk) (site rk) u.

(** The object as [__init__] has it when it calls [__authenticate]: a new
    session, the site, no profile identifier. *)
Definition new_Runkeeper (email password : string) : Runkeeper :=
  mkRunkeeper email password (mkSession [] []) "https://runkeeper.com" "".

(** ** class Activity *)

(** The fields set by [__init__]: the eight summary fields and the five
    caches.  The attribute [session] is the manager's session object itself,
    and [_runkeeper] the manager: both live in the [Heap] below. *)
Record Activity : Type := mkActivity {
  username : value;
  distance : value;
  activity_id : value;
  distance_units : value;
  elapsed_time : value;
  live : value;
  caption : value;
  activity_type : value;
  __statsCalories : value;
  __statsElevation : value;
  __statsPace : value;
  __statsSpeed : value;
  __datetime : value
}.

Definition set___statsCalories (v : value) (a : Activity) : Activity :=
  mkActivity (username a) (distance a) (activity_id a) (distance_units a)
    (elapsed_time a) (live a) (caption a) (activity_type a)
    v (__statsElevation a) (__statsPace a) (__statsSpeed a) (__datetime a).

Definition set___statsElevation (v : value) (a : Activity) : Activity :=
  mkActivity (username a) (distance a) (activity_id a) (distance_units a)
    (elapsed_time a) (live a) (caption a) (activity_type a)
    (__statsCalories a) v (__statsPace a) (__statsSpeed a) (__datetime a).

Definition set___statsPace (v : value) (a : Activity) : Activity :=
  mkActivity (username a) (distance a) (activity_id a) (distance_units a)
    (elapsed_time a) (live a) (caption a) (activity_type a)
    (__statsCalories a) (__statsElevation a) v (__statsSpeed a) (__datetime a).

Definition set___statsSpeed (v : value) (a : Activity) : Activity :=
  mkActivity (username a) (distance a) (activity_id a) (distance_units a)
    (elapsed_time a) (live a) (caption a) (activity_type a)
    (__statsCalories a) (__statsElevation a) (__statsPace a) v (__datetime a).

Definition set___datetime (v : value) (a : Activity) : Activity :=
  mkActivity (username a) (distance a) (activity_id a) (distance_units a)
    (elapsed_time a) (live a) (caption a) (activity_type a)
    (__statsCalories a) (__statsElevation a) (__statsPace a) (__statsSpeed a) v.

(** An activity together with the manager its [_runkeeper] attribute points
    to.  Every activity of one manager runs on the same [_runkeeper]
    component, so what one of them does to the manager (resolving the
    profile, sending requests on the session) is seen by the others. *)
Record Heap : Type := mkHeap {
  _runkeeper : Runkeeper;
  self : Activity
}.

Definition set__runkeeper (rk : Runkeeper) (h : Heap) : Heap :=
  mkHeap rk (self h).

Definition set_self (f : Activity -> Activity) (h : Heap) : Heap :=
  mkHeap (_runkeeper h) (f (self h)).

Section Program.

Variable env : Env.

(** *** Requests on the session *)

(** [session.get] / [session.post]: the request is recorded, the site
    answers or the transport fails; the cookies of an answer go to the jar. *)
Definition request (m : method) (u : string) (p : dict value)
  (d : dict string) : M Session Response :=
  fun s =>
    let r := mkRequest m u p d (jar s) in
    match server env (length (sent s)) r with
    | Some resp =>
        (Ok resp,
         mkSession (dict_update (jar s) (cookies resp)) (sent s ++ [r])%list)
    | None => (Raise RequestException, mkSession (jar s) (sent s ++ [r])%list)
    end.

Definition session_get (u : string) (p : dict value) : M Session Response :=
  request GET u p [].

Definition session_post (u : string) (d : dict string) : M Session Response :=
  request POST u [] d.

(** [self.session. ...] in a method of [Runkeeper] *)
Definition on_session {A} (m : M Session A) : M Runkeeper A :=
  zoom session set_session m.

(** *** Runkeeper.__get_hidden_elements *)

(** [{element.attrs['name']: element.attrs['value'] for element in form}] *)
Fixpoint hidden_dict (form : list hidden_input) (acc : dict string)
  : result (dict string) :=
  match form with
  | [] => Ok acc
  | element :: rest =>
      match attr_name element, attr_value element with
      | Some n, Some v => hidden_dict rest (dict_set n v acc)
      | _, _ => Raise KeyError
      end
  end.

Definition __get_hidden_elements : M Runkeeper (dict string) :=
  self <- get ;;
  let url := site self ++ "/login" in
  login_form <- on_session (session_get url []) ;;
  soup <- lift (bfs login_form) ;;
  let form := hidden_inputs soup in
  hidden_elements <- lift (hidden_dict form []) ;;
  ret hidden_elements.

(** *** Runkeeper.__authenticate *)

(** [not c] for what [cookies.get] returned is false only for a non-empty
    value. *)
Definition cookie_truthy (c : option string) : bool :=
  match c with
  | Some v => str_truthy v
  | None => false
  end.

Definition __authenticate : M Runkeeper bool :=
  self <- get ;;
  let url := site self ++ "/login" in
  hidden_elements <- __get_hidden_elements ;;
  let hidden_elements := dict_set "email" (email self) hidden_elements in
  let hidden_elements := dict_set "password" (password self) hidden_elements in
  valid_authentication <-
    try_except_all (on_session (session_post url hidden_elements))
                   EndpointConnectionError ;;
  checker <- lift (cookies_get (cookies valid_authentication) "checker") ;;
  if negb (cookie_truthy checker)
  then raise InvalidAuhentication
  else ret true.

(** *** Runkeeper.__init__

    The object as the assignments of [__init__] leave it, then
    [__authenticate]; the result is the run of [__authenticate] on it, so
    the state reached is visible when construction raises too. *)
Definition Runkeeper__init__ (email password : string)
  : result bool * Runkeeper :=
  __authenticate (new_Runkeeper email password).

(** *** Runkeeper.profile_username *)

Definition profile_username : M Runkeeper string :=
  self <- get ;;
  (if negb (str_truthy (__profile_username self)) then
     let url := site self ++ "/home" in
     home <- try_except_all (on_session (session_get url []))
                            EndpointConnectionError ;;
     soup <- lift (bfs home) ;;
     let profile_url := find profile_re_search (anchors soup) in
     try_except
       (segment <- lift (match profile_url with
                         | None => Raise AttributeError
                         | Some href => list_index (split "/" href) 2
                         end) ;;
        modify (set___profile_username segment))
       IndexError ProfileNotFound
   else ret tt) ;;
  self <- get ;;
  ret (__profile_username self).

(** *** Activity.__init__ *)

Definition Activity__init__ {S} (info : value) : M S Activity :=
  try_except
    (username <- lift (py_get info "username") ;;
     distance <- lift (py_get info "distance") ;;
     activity_id <- lift (py_get info "activity_id") ;;
     distance_units <- lift (py_get info "distanceUnits") ;;
     elapsed_time <- lift (py_get info "elapsedTime") ;;
     live <- lift (py_get info "live") ;;
     caption <- lift (py_get info "mainText") ;;
     activity_type <- lift (py_get info "type") ;;
     ret (mkActivity username distance activity_id distance_units
            elapsed_time live caption activity_type
            PyNone PyNone PyNone PyNone PyNone))
    KeyError InvalidActivityId.

(** *** Runkeeper.get_activities_month *)

(** [year or str(datetime.today().year)] *)
Definition year_or_today (year : option string) : string :=
  match year with
  | Some y => if str_truthy y then y else str_of_Z (today_year env)
  | None => str_of_Z (today_year env)
  end.

Definition get_activities_month (month : string) (year : option string)
  : M Runkeeper (list Activity) :=
  let year := year_or_today year in
  let start_date := month ++ "-01-" ++ year in
  user_name <- profile_username ;;
  self <- get ;;
  let payload := [("userName", PyStr user_name);
                  ("startDate", PyStr start_date)] in
  let url := site self ++ "/activitiesByDateRange" in
  activities_month_request <-
    try_except_all (on_session (session_get url payload))
                   EndpointConnectionError ;;
  activities_month <-
    try_except_all
      (lift (match json activities_month_request with
             | Some v => py_index v "activities"
             | None => Raise ValueError
             end))
      NoActivitiesFound ;;
  if negb (truthy activities_month) then raise NoActivityInMonth
  else
    of_year <- lift (py_index activities_month year) ;;
    of_month <- lift (py_index of_year month) ;;
    activity_details <- lift (py_iter of_month) ;;
    mapM Activity__init__ activity_details.

(** *** Activity.get_activity_details *)

(** [self._runkeeper. ...] and [self.session. ...] in a method of
    [Activity] *)
Definition on_runkeeper {A} (m : M Runkeeper A) : M Heap A :=
  zoom _runkeeper set__runkeeper m.

Definition get_activity_details (activity_id : value) : M Heap value :=
  h <- get ;;
  let url := site (_runkeeper h) ++ "/ajax/pointData" in
  let activity_params := [("activityId", activity_id)] in
  activity_request <-
    try_except_all
      (on_runkeeper (on_session (session_get url activity_params)))
      EndpointConnectionError ;;
  activity_details <-
    try_except_all
      (lift (match json activity_request with
             | Some v => Ok v
             | None => Raise ValueError
             end))
      InvalidActivityId ;;
  ret activity_details.

(** *** Activity.get_activity_datetime *)

(** [[date_params.split('-')[0].rstrip() for date_params in form]]: a
    child that is a string gives its part before the first [-].  For a
    child that is a tag, [date_params.split] is [None] when no element
    named [split] is inside, and calling it raises [TypeError]; otherwise
    it is that element, calling it with ['-'] is [find_all('-')], which is
    empty since no element is named [-], and [[0]] raises [IndexError]. *)
Fixpoint date_parts (form : list node) : result (list string) :=
  match form with
  | [] => Ok []
  | NavigableString date_params :: rest =>
      match list_index (split "-" date_params) 0 with
      | Ok part =>
          match date_parts rest with
          | Ok parts => Ok (rstrip part :: parts)
          | Raise e => Raise e
          end
      | Raise e => Raise e
      end
  | Tag false :: _ => Raise TypeError
  | Tag true :: _ => Raise IndexError
  end.

Definition get_activity_datetime (activity_id : value) : M Heap value :=
  h <- get ;;
  profile <- on_runkeeper profile_username ;;
  let url := site (_runkeeper h) ++ "/user/" ++ profile
             ++ "/activity/" ++ py_str env activity_id in
  activity_datetime_session <-
    try_except_all (on_runkeeper (on_session (session_get url [])))
                   EndpointConnectionError ;;
  soup <- lift (bfs activity_datetime_session) ;;
  let form := subtitle soup in
  activity_datetime <- lift (match form with
                             | Some children => date_parts children
                             | None => Raise TypeError
                             end) ;;
  let activity_datetime := join activity_datetime in
  activity_datetime <- lift (strptime env activity_datetime) ;;
  ret (PyDateTime activity_datetime).

(** *** Activity._populate *)

Definition _populate : M Heap unit :=
  h <- get ;;
  activity_details <- get_activity_details (activity_id (self h)) ;;
  h <- get ;;
  activity_datetime <- get_activity_datetime (activity_id (self h)) ;;
  modify (set_self (set___datetime activity_datetime)) ;;
  statsCalories <- lift (py_get activity_details "statsCalories") ;;
  modify (set_self (set___statsCalories statsCalories)) ;;
  statsElevation <- lift (py_get activity_details "statsElevation") ;;
  modify (set_self (set___statsElevation statsElevation)) ;;
  statsPace <- lift (py_get activity_details "statsPace") ;;
  modify (set_self (set___statsPace statsPace)) ;;
  statsSpeed <- lift (py_get activity_details "statsSpeed") ;;
  modify (set_self (set___statsSpeed statsSpeed)).

(** *** The five properties *)

(** [if not self.<cache>: self._populate()] then [return self.<cache>] *)
Definition lazy (cache : Activity -> value) : M Heap value :=
  h <- get ;;
  (if negb (truthy (cache (self h))) then _populate else ret tt) ;;
  h <- get ;;
  ret (cache (self h)).

Definition calories : M Heap value := lazy __statsCalories.
Definition elevation : M Heap value := lazy __statsElevation.
Definition pace : M Heap value := lazy __statsPace.
Definition speed : M Heap value := lazy __statsSpeed.
Definition datetime : M Heap value := lazy __datetime.

End Program.

(** ** A sample site *)

Module Sample.

Definition no_body : Response := parsed [] None [] [] None.

Definition login_page : Response :=
  parsed [("JSESSIONID", "n0")] None
    [mkHidden (Some "_eventName") (Some "submit");
     mkHidden (Some "redirectUrl") (Some "")] [] None.

Definition logged_in : Response :=
  parsed [("checker", "c1")] None [] [] None.

Definition home_page : Response :=
  parsed [] None [] ["/about"; "/user/jane/profile"] None.

Definition entry (id : Z) (text : string) : value :=
  PyDict [("activity_id", PyInt id); ("username", PyStr "jane");
          ("distance", PyStr "3.1"); ("distanceUnits", PyStr "mi");
          ("elapsedTime", PyStr "30:12"); ("live", PyBool false);
          ("mainText", PyStr text); ("type", PyStr "RUN")].

Definition listing : Response :=
  parsed [] (Some (PyDict [("activities",
      PyDict [("2024", PyDict [("Jan",
        PyList [entry 42 "Morning run"; entry 43 "Evening run"])])])])) [] [] None.

Definition details (calories : Z) : Response :=
  parsed [] (Some (PyDict [("statsCalories", PyInt calories);
                               ("statsElevation", PyInt 5);
                               ("statsPace", PyStr "5:30");
                               ("statsSpeed", PyStr "10.9")])) [] [] None.

Definition activity_page : Response :=
  parsed [] None [] []
    (Some [NavigableString "Mon Jan 05 14:30:00 UTC 2024 - 3.1 mi"]).

(** A site that answers each URL of the module, whatever the time. *)
Definition route (calories : Z) (r : Request) : option Response :=
  if String.eqb (url r) "https://runkeeper.com/login" then
    match meth r with GET => Some login_page | POST => Some logged_in end
  else if String.eqb (url r) "https://runkeeper.com/home" then Some home_page
  else if String.eqb (url r) "https://runkeeper.com/activitiesByDateRange"
  then Some listing
  else if String.eqb (url r) "https://runkeeper.com/ajax/pointData"
  then Some (details calories)
  else if String.prefix "https://runkeeper.com/user/jane/activity/" (url r)
  then Some activity_page
  else Some no_body.

Definition env (calories : Z) : Env :=
  mkEnv (fun _ => route calories) 2024 [] (fun _ => "").

(** The manager after a successful login, and its first activity of
    January 2024. *)
Definition manager : Runkeeper :=
  snd (Runkeeper__init__ (env 120) "jane@example.org" "secret").

Definition activities (calories : Z) : result (list Activity) * Runkeeper :=
  get_activities_month (env calories) "Jan" (Some "2024") manager.

Definition first_activity (calories : Z) : Heap :=
  match activities calories with
  | (Ok (a :: _), rk) => mkHeap rk a
  | (_, rk) =>
      mkHeap rk (mkActivity PyNone PyNone PyNone PyNone PyNone PyNone PyNone
                   PyNone PyNone PyNone PyNone PyNone PyNone)
  end.

(** The same site with the answer to one URL and method replaced; [None]
    makes the transport fail there. *)
Definition method_eqb (a b : method) : bool :=
  match a, b with
  | GET, GET | POST, POST => true
  | _, _ => false
  end.

Definition override (m : method) (u : string) (x : option Response)
  (f : Request -> option Response) (r : Request) : option Response :=
  if method_eqb (meth r) m && String.eqb (url r) u then x else f r.

Definition env_with (m : method) (u : string) (x : option Response) : Env :=
  mkEnv (fun _ => override m u x (route 120)) 2024 [] (fun _ => "").

(** The transport fails on the third request of the session and on no
    other. *)
Definition env_third_fails : Env :=
  mkEnv (fun n r => if Nat.eqb n 2 then None else route 120 r) 2024 []
        (fun _ => "").

(** The fifth request of the session gets a body that is not JSON. *)
Definition env_fifth_malformed : Env :=
  mkEnv (fun n r => if Nat.eqb n 4 then Some no_body else route 120 r) 2024 []
        (fun _ => "").

(** The home page has no link at all; its one link is [///user/b], whose
    third segment is empty; its one link is [0/profile], which has two
    segments. *)
Definition env_no_link : Env :=
  env_with GET "https://runkeeper.com/home" (Some no_body).

Definition env_empty_identifier : Env :=
  env_with GET "https://runkeeper.com/home"
    (Some (parsed [] None [] ["///user/b"] None)).

Definition env_short_link : Env :=
  env_with GET "https://runkeeper.com/home"
    (Some (parsed [] None [] ["0/profile"] None)).

(** The listing is [{"activities": []}]; it is
    [{"activities": {"2024": {"Jan": []}}}]. *)
Definition empty_listing : Response :=
  parsed [] (Some (PyDict [("activities", PyList [])])) [] [] None.

Definition env_empty_listing : Env :=
  env_with GET "https://runkeeper.com/activitiesByDateRange"
    (Some empty_listing).

Definition env_empty_month : Env :=
  env_with GET "https://runkeeper.com/activitiesByDateRange"
    (Some (parsed []
             (Some (PyDict [("activities",
                PyDict [("2024", PyDict [("Jan", PyList [])])])]))
             [] [] None)).

(** The transport fails on the [GET] of the login page; the answer to the
    [POST] sets the cookie [checker] to the empty string. *)
Definition env_login_down : Env :=
  env_with GET "https://runkeeper.com/login" None.



(** The detail endpoint answers with the JSON array [[]]. *)
Definition env_details_array : Env :=
  env_with GET "https://runkeeper.com/ajax/pointData"
    (Some (parsed [] (Some (PyList [])) [] [] None)).

(** The first activity, never read; the first activity of the site that
    reports zero calories, never read and after one read of [calories]. *)
Definition activity : Heap := first_activity 120.

Definition zero_activity : Heap := first_activity 0.

Definition zero_activity_read : Heap := snd (calories (env 0) zero_activity).

End Sample.

(** ** Notions the properties are stated with *)

(** The five lazily populated properties of an activity. *)
Inductive property : Type := Calories | Elevation | Pace | Speed | Datetime.

Definition cache (p : property) : Activity -> value :=
  match p with
  | Calories => __statsCalories
  | Elevation => __statsElevation
  | Pace => __statsPace
  | Speed => __statsSpeed
  | Datetime => __datetime
  end.

(** Reading property [p]. *)
Definition access (env : Env) (p : property) : M Heap value :=
  match p with
  | Calories => calories env
  | Elevation => elevation env
  | Pace => pace env
  | Speed => speed env
  | Datetime => datetime env
  end.

(** A record whose five caches are as [__init__] left them. *)
Definition unset (a : Activity) : Prop := forall p, cache p a = PyNone.

(** The requests issued so far on the session an activity shares with its
    manager. *)
Definition requests (h : Heap) : list Request := sent (session (_runkeeper h)).

(** Every call of [get_activity_details] issues one request, to the
    point-data URL, and nothing else does; every call of
    [get_activity_datetime] that gets past the profile issues one request, to
    a URL under [/user/], and nothing else does.  So the calls are counted
    on the session. *)
Definition is_details_request (site : string) (r : Request) : bool :=
  String.eqb (url r) (site ++ "/ajax/pointData").

Definition is_datetime_request (site : string) (r : Request) : bool :=
  String.prefix (site ++ "/user/") (url r).

Definition details_fetches (h : Heap) : nat :=
  length (filter (is_details_request (site (_runkeeper h))) (requests h)).

Definition datetime_fetches (h : Heap) : nat :=
  length (filter (is_datetime_request (site (_runkeeper h))) (requests h)).

(** The requests of the module. *)
Definition login_get (rk : Runkeeper) : Request :=
  mkRequest GET (site rk ++ "/login") [] [] (jar (session rk)).

Definition login_post (rk : Runkeeper) (hidden_elements : dict string)
  : Request :=
  mkRequest POST (site rk ++ "/login") []
    (dict_set "password" (password rk)
       (dict_set "email" (email rk) hidden_elements))
    (jar (session rk)).

Definition home_request (rk : Runkeeper) : Request :=
  mkRequest GET (site rk ++ "/home") [] [] (jar (session rk)).

Definition listing_request (env : Env) (rk : Runkeeper)
  (month : string) (year : option string) : Request :=
  mkRequest GET (site rk ++ "/activitiesByDateRange")
    [("userName", PyStr (__profile_username rk));
     ("startDate", PyStr (month ++ "-01-" ++ year_or_today env year))]
    [] (jar (session rk)).

Definition details_request (rk : Runkeeper) (activity_id : value) : Request :=
  mkRequest GET (site rk ++ "/ajax/pointData")
    [("activityId", activity_id)] [] (jar (session rk)).

Definition datetime_request (env : Env) (rk : Runkeeper)
  (activity_id : value) : Request :=
  mkRequest GET (site rk ++ "/user/" ++ __profile_username rk
                 ++ "/activity/" ++ py_str env activity_id)
    [] [] (jar (session rk)).

(** The site's answer to [r] when it is the next request of the session. *)
Definition answer (env : Env) (rk : Runkeeper) (r : Request)
  : option Response :=
  server env (length (sent (session rk))) r.

(** The manager after request [q] was answered by [resp], and after the
    transport failed on [q]. *)
Definition after_answer (rk : Runkeeper) (q : Request) (resp : Response)
  : Runkeeper :=
  set_session (mkSession (dict_update (jar (session rk)) (cookies resp))
                 (sent (session rk) ++ [q])%list) rk.

Definition after_failure (rk : Runkeeper) (q : Request) : Runkeeper :=
  set_session (mkSession (jar (session rk)) (sent (session rk) ++ [q])%list) rk.

(** The manager under construction once the login page [form] has come
    back. *)
Definition with_login_page (email password : string) (form : Response)
  : Runkeeper :=
  after_answer (new_Runkeeper email password)
    (login_get (new_Runkeeper email password)) form.

(** The record with its five caches filled from the detail mapping [kvs]
    and the timestamp [t]; the summary fields stay. *)
Definition populated (kvs : dict value) (t : value) (a : Activity) : Activity :=
  mkActivity (username a) (distance a) (activity_id a) (distance_units a)
    (elapsed_time a) (live a) (caption a) (activity_type a)
    (dict_get kvs "statsCalories") (dict_get kvs "statsElevation")
    (dict_get kvs "statsPace") (dict_get kvs "statsSpeed") t.

(** [_populate] on [h] fails in one of its two fetches with [e], in state
    [h']: in [get_activity_details], or after it in
    [get_activity_datetime]. *)
Definition fetch_fails (env : Env) (h : Heap) (e : exn) (h' : Heap) : Prop :=
  get_activity_details env (activity_id (self h)) h = (Raise e, h') \/
  exists d h1,
    get_activity_details env (activity_id (self h)) h = (Ok d, h1) /\
    get_activity_datetime env (activity_id (self h)) h1 = (Raise e, h').

(** [n] reads of [profile_username] in a row. *)
Fixpoint read_profile (env : Env) (n : nat) : M Runkeeper (list string) :=
  match n with
  | O => ret []
  | S n' =>
      u <- profile_username env ;; us <- read_profile env n' ;; ret (u :: us)
  end.

(** What a JSON object supplies for a key, in the words of the listing: the
    value it binds the key to, [None] when it does not bind it.  (Of two
    bindings of a key in the association list the first is the object's.) *)
Inductive supplies (k : string) : dict value -> value -> Prop :=
| supplies_none : supplies k [] PyNone
| supplies_here v kvs : supplies k ((k, v) :: kvs) v
| supplies_later k' v' kvs v :
    k' <> k -> supplies k kvs v -> supplies k ((k', v') :: kvs) v.

(** The record built from a listing entry shows the entry's fields: the
    entry is an object, and each of the eight summary fields is what the
    object supplies for the field's key. *)
Definition exposes (info : value) (a : Activity) : Prop :=
  exists kvs,
    info = PyDict kvs /\
    supplies "username" kvs (username a) /\
    supplies "distance" kvs (distance a) /\
    supplies "distanceUnits" kvs (distance_units a) /\
    supplies "activity_id" kvs (activity_id a) /\
    supplies "elapsedTime" kvs (elapsed_time a) /\
    supplies "live" kvs (live a) /\
    supplies "mainText" kvs (caption a) /\
    supplies "type" kvs (activity_type a).

(** What the site returned for a property: for a statistic what the detail
    object [kvs] supplies for its key, for the timestamp the parsed date
    [d] of the activity page. *)
Definition detail_key (p : property) : string :=
  match p with
  | Calories => "statsCalories"
  | Elevation => "statsElevation"
  | Pace => "statsPace"
  | Speed => "statsSpeed"
  | Datetime => ""
  end.

Definition returned (kvs : dict value) (d : DateTime) (p : property)
  (v : value) : Prop :=
  match p with
  | Datetime => v = PyDateTime d
  | _ => supplies (detail_key p) kvs v
  end.

Definition is_dict (v : value) : Prop := exists kvs, v = PyDict kvs.

(** ** Notions the further properties are stated with *)

Definition is_dictb (v : value) : bool :=
  match v with
  | PyDict _ => true
  | _ => false
  end.

(** A hidden input that has both attributes [__get_hidden_elements] reads. *)
Definition complete (element : hidden_input) : bool :=
  match attr_name element, attr_value element with
  | Some _, Some _ => true
  | _, _ => false
  end.

(** The value of the last input of [form] named [k]. *)
Fixpoint last_hidden (k : string) (form : list hidden_input) : option string :=
  match form with
  | [] => None
  | element :: rest =>
      match last_hidden k rest with
      | Some v => Some v
      | None =>
          match attr_name element, attr_value element with
          | Some n, Some v => if String.eqb k n then Some v else None
          | _, _ => None
          end
      end
  end.

(** The eight summary fields of a record. *)
Definition summary (a : Activity) : list value :=
  [username a; distance a; activity_id a; distance_units a;
   elapsed_time a; live a; caption a; activity_type a].

Fixpoint has_char (c : ascii) (s : string) : bool :=
  match s with
  | EmptyString => false
  | String c' r => Ascii.eqb c' c || has_char c r
  end.

Definition starts_with_letter (s : string) : bool :=
  match s with
  | String c _ => is_alpha c
  | EmptyString => false
  end.

(** The exceptions a property of an activity can raise. *)
Definition access_exceptions : list exn :=
  [EndpointConnectionError; InvalidActivityId; ParserRejectedMarkup;
   ProfileNotFound; AttributeError; TypeError; IndexError; ValueError].


(** More sites, for the further properties. *)
Module Cases.

(** The login form has a hidden input with no [value]. *)
Definition broken_form : Response :=
  parsed [] None
    [mkHidden (Some "_eventName") (Some "submit");
     mkHidden (Some "token") None] [] None.

Definition env_broken_form : Env :=
  Sample.env_with GET "https://runkeeper.com/login" (Some broken_form).

(** The listing is [{"activities": {"2023": {}}}]: no key for 2024. *)
Definition other_year : Response :=
  parsed []
    (Some (PyDict [("activities", PyDict [("2023", PyDict [])])]))
    [] [] None.

Definition env_other_year : Env :=
  Sample.env_with GET "https://runkeeper.com/activitiesByDateRange"
    (Some other_year).

(** The listing is [{"activity": []}]: no top-level key. *)
Definition no_key : Response :=
  parsed [] (Some (PyDict [("activity", PyList [])])) [] [] None.

Definition env_no_key : Env :=
  Sample.env_with GET "https://runkeeper.com/activitiesByDateRange"
    (Some no_key).

(** The second entry of the month is a number. *)
Definition bad_entry : Response :=
  parsed []
    (Some (PyDict [("activities",
       PyDict [("2024", PyDict [("Jan",
         PyList [Sample.entry 42 "Morning run"; PyInt 7])])])]))
    [] [] None.

Definition env_bad_entry : Env :=
  Sample.env_with GET "https://runkeeper.com/activitiesByDateRange"
    (Some bad_entry).

(** The activity page has no subtitle element. *)
Definition env_no_subtitle : Env :=
  Sample.env_with GET "https://runkeeper.com/user/jane/activity/42"
    (Some Sample.no_body).

(** The parser rejects the markup of the home page; of the activity
    page. *)
Definition rejected : Response := mkResponse [] None None.

Definition env_home_rejected : Env :=
  Sample.env_with GET "https://runkeeper.com/home" (Some rejected).

Definition env_page_rejected : Env :=
  Sample.env_with GET "https://runkeeper.com/user/jane/activity/42"
    (Some rejected).

(** The subtitle element of the activity page holds a tag with an element
    named [split] inside. *)
Definition env_split_inside : Env :=
  Sample.env_with GET "https://runkeeper.com/user/jane/activity/42"
    (Some (parsed [] None [] [] (Some [Tag true]))).

(** The answer to the [POST] sets two cookies named [checker]. *)
Definition two_checkers : Response :=
  parsed [("checker", "a"); ("checker", "b")] None [] [] None.

Definition env_two_checkers : Env :=
  Sample.env_with POST "https://runkeeper.com/login" (Some two_checkers).

(** The manager once [profile_username] has been read. *)
Definition resolved : Runkeeper :=
  snd (profile_username (Sample.env 120) Sample.manager).

End Cases.

(** * Properties *)

Unset Implicit Arguments.

(** ** Strings and dicts *)

Lemma eqb_app_l (s a b : string) :
  String.eqb (s ++ a) (s ++ b) = String.eqb a b.
Proof.
  induction s as [|c s IH]; simpl; [reflexivity|].
  now rewrite Ascii.eqb_refl.
Qed.

Lemma prefix_app_l (s a b : string) :
  String.prefix (s ++ a) (s ++ b) = String.prefix a b.
Proof.
  induction s as [|c s IH]; simpl; [reflexivity|].
  destruct (ascii_dec c c) as [_|n]; [exact IH | now elim n].
Qed.

Lemma dict_lookup_set {A} (k k' : string) (v : A) (d : dict A) :
  dict_lookup k (dict_set k' v d)
  = if String.eqb k k' then Some v else dict_lookup k d.
Proof.
  induction d as [|[k0 v0] d IH]; simpl.
  - destruct (String.eqb k k'); reflexivity.
  - destruct (String.eqb k' k0) eqn:E0; simpl.
    + apply String.eqb_eq in E0; subst k0.
      destruct (String.eqb k k'); reflexivity.
    + destruct (String.eqb k k0) eqn:E1.
      * apply String.eqb_eq in E1; subst k0.
        rewrite String.eqb_sym in E0. now rewrite E0.
      * exact IH.
Qed.


(** ** Steps of the monad *)

Lemma bind_ok {S A B} (m : M S A) (k : A -> M S B) s a s1 :
  m s = (Ok a, s1) -> bind m k s = k a s1.
Proof. unfold bind; intros ->; reflexivity. Qed.

Lemma bind_raise {S A B} (m : M S A) (k : A -> M S B) s e s1 :
  m s = (Raise e, s1) -> bind m k s = (Raise e, s1).
Proof. unfold bind; intros ->; reflexivity. Qed.

Lemma bind_inv {S A B} (m : M S A) (k : A -> M S B) s r s' :
  bind m k s = (r, s') ->
  (exists e, m s = (Raise e, s') /\ r = Raise e) \/
  (exists a s1, m s = (Ok a, s1) /\ k a s1 = (r, s')).
Proof.
  unfold bind. destruct (m s) as [[a|e] s1]; intros H.
  - right; eauto.
  - left; inversion H; subst; eauto.
Qed.

(** ** The session *)

Section Facts.

Variable env : Env.

Lemma request_sent m u p d s r s' :
  request env m u p d s = (r, s') ->
  sent s' = (sent s ++ [mkRequest m u p d (jar s)])%list.
Proof.
  unfold request. destruct (server env _ _); intros H; inversion H; reflexivity.
Qed.

Lemma request_outcome m u p d s :
  request env m u p d s
  = match server env (length (sent s)) (mkRequest m u p d (jar s)) with
    | Some resp =>
        (Ok resp, mkSession (dict_update (jar s) (cookies resp))
                    (sent s ++ [mkRequest m u p d (jar s)])%list)
    | None =>
        (Raise RequestException,
         mkSession (jar s) (sent s ++ [mkRequest m u p d (jar s)])%list)
    end.
Proof. reflexivity. Qed.

(** *** profile_username *)

(** A non-empty cached identifier is returned as it is, and nothing else
    happens. *)
Lemma profile_username_hit rk :
  __profile_username rk <> "" ->
  profile_username env rk = (Ok (__profile_username rk), rk).
Proof.
  intros H. unfold profile_username, bind, get, ret, str_truthy.
  apply String.eqb_neq in H. rewrite H. reflexivity.
Qed.

(** What a read with an empty cache does, by the site's answer. *)
Lemma profile_username_unfold rk :
  __profile_username rk = "" ->
  profile_username env rk
  = let rk1 resp :=
      set_session (mkSession (dict_update (jar (session rk)) (cookies resp))
                     (sent (session rk) ++ [home_request rk])%list) rk in
    match answer env rk (home_request rk) with
    | None =>
        (Raise EndpointConnectionError,
         set_session (mkSession (jar (session rk))
                        (sent (session rk) ++ [home_request rk])%list) rk)
    | Some resp =>
        match soup resp with
        | None => (Raise ParserRejectedMarkup, rk1 resp)
        | Some document =>
            match find profile_re_search (anchors document) with
            | None => (Raise AttributeError, rk1 resp)
            | Some href =>
                match nth_error (split "/" href) 2 with
                | None => (Raise ProfileNotFound, rk1 resp)
                | Some u => (Ok u, set___profile_username u (rk1 resp))
                end
            end
        end
    end.
Proof.
  intros H.
  unfold profile_username, bind, get, ret, str_truthy, try_except_all,
    try_except, on_session, zoom, session_get, request, lift, modify,
    list_index, answer, home_request, bfs.
  rewrite H. simpl.
  destruct (server env _ _) as [resp|]; simpl; [|reflexivity].
  destruct (soup resp) as [document|]; simpl; [|reflexivity].
  destruct (find profile_re_search (anchors document)) as [href|]; simpl;
    [|reflexivity].
  destruct (split "/" href) as [|a [|b [|c l]]]; reflexivity.
Qed.

End Facts.

(** ** The profile identifier *)

(** C5.  On a first read of [profile_username], a home page with no link
    that matches the pattern makes the accessor raise [AttributeError], not
    [ProfileNotFound] ([soup.find] is [None], and [None.attrs] is outside
    what [except IndexError] catches); a matching link whose [href] has fewer
    than three segments raises [ProfileNotFound]. *)
Theorem profile_username_without_link env rk resp document :
  __profile_username rk = "" ->
  answer env rk (home_request rk) = Some resp ->
  soup resp = Some document ->
  match find profile_re_search (anchors document) with
  | None => fst (profile_username env rk) = Raise AttributeError
  | Some href =>
      (length (split "/" href) < 3)%nat ->
      fst (profile_username env rk) = Raise ProfileNotFound
  end.
Proof.
  intros Hempty Hans Hsoup.
  rewrite (profile_username_unfold env rk Hempty). cbv zeta.
  rewrite Hans, Hsoup.
  destruct (find profile_re_search (anchors document)) as [href|];
    [|reflexivity].
  intros Hlen.
  destruct (split "/" href) as [|a [|b [|c l]]]; simpl in *;
    try reflexivity; lia.
Qed.

Lemma profile_username_without_link_witness :
  fst (profile_username Sample.env_no_link Sample.manager)
  = Raise AttributeError.
Proof.
  exact (profile_username_without_link Sample.env_no_link Sample.manager
           Sample.no_body (mkSoup [] [] None) eq_refl eq_refl eq_refl).
Defined.

(** A read of [profile_username] issues at most one request, the home
    request, and touches nothing but the session and the cache. *)
Lemma profile_username_effect env rk r rk' :
  profile_username env rk = (r, rk') ->
  site rk' = site rk /\ email rk' = email rk /\ password rk' = password rk /\
  (sent (session rk') = sent (session rk) \/
   sent (session rk') = (sent (session rk) ++ [home_request rk])%list).
Proof.
  destruct (String.eqb_spec (__profile_username rk) "") as [E|E].
  - rewrite (profile_username_unfold env rk E). cbv zeta.
    destruct (answer env rk (home_request rk)) as [resp|].
    + destruct (soup resp) as [document|].
      * destruct (find profile_re_search (anchors document)) as [href|].
        -- destruct (nth_error (split "/" href) 2);
             intros H; inversion H; subst; simpl; auto.
        -- intros H; inversion H; subst; simpl; auto.
      * intros H; inversion H; subst; simpl; auto.
    + intros H; inversion H; subst; simpl; auto.
  - rewrite (profile_username_hit env rk E).
    intros H; inversion H; subst; auto.
Qed.

(** A read that raises leaves the cache as it was. *)
Lemma profile_username_raises env rk e rk' :
  profile_username env rk = (Raise e, rk') ->
  __profile_username rk = "" /\ __profile_username rk' = "" /\
  sent (session rk') = (sent (session rk) ++ [home_request rk])%list /\
  (e = EndpointConnectionError \/ e = ParserRejectedMarkup \/
   e = ProfileNotFound \/ e = AttributeError).
Proof.
  destruct (String.eqb_spec (__profile_username rk) "") as [E|E].
  - rewrite (profile_username_unfold env rk E). cbv zeta.
    destruct (answer env rk (home_request rk)) as [resp|].
    + destruct (soup resp) as [document|].
      * destruct (find profile_re_search (anchors document)) as [href|].
        -- destruct (nth_error (split "/" href) 2);
             intros H; inversion H; subst; simpl; auto 7.
        -- intros H; inversion H; subst; simpl; auto 7.
      * intros H; inversion H; subst; simpl; auto 7.
    + intros H; inversion H; subst; simpl; auto 7.
  - rewrite (profile_username_hit env rk E). discriminate.
Qed.

(** A read that returns has stored what it returns. *)
Lemma profile_username_returns env rk u rk' :
  profile_username env rk = (Ok u, rk') -> __profile_username rk' = u.
Proof.
  destruct (String.eqb_spec (__profile_username rk) "") as [E|E].
  - rewrite (profile_username_unfold env rk E). cbv zeta.
    destruct (answer env rk (home_request rk)) as [resp|]; [|discriminate].
    destruct (soup resp) as [document|]; [|discriminate].
    destruct (find profile_re_search (anchors document)) as [href|];
      [|discriminate].
    destruct (nth_error (split "/" href) 2); [|discriminate].
    intros H; inversion H; subst; reflexivity.
  - rewrite (profile_username_hit env rk E).
    intros H; inversion H; subst; reflexivity.
Qed.

(** C6, as the code has it.  Once a read of [profile_username] has returned
    a non-empty identifier, any number of further reads return that same
    string and leave the manager, its session included, as it is: no
    request is issued; the read that resolved it issued at most one. *)
Theorem profile_username_cached env rk u rk1 n :
  profile_username env rk = (Ok u, rk1) ->
  u <> "" ->
  read_profile env n rk1 = (Ok (repeat u n), rk1) /\
  (length (sent (session rk1)) <= length (sent (session rk)) + 1)%nat.
Proof.
  intros Hread Hu. split.
  - pose proof (profile_username_returns _ _ _ _ Hread) as Hc.
    assert (Hstep : profile_username env rk1 = (Ok u, rk1)).
    { subst u. now apply profile_username_hit. }
    induction n as [|n IH]; simpl; [reflexivity|].
    rewrite (bind_ok _ _ _ _ _ Hstep), (bind_ok _ _ _ _ _ IH). reflexivity.
  - destruct (profile_username_effect _ _ _ _ Hread) as (_ & _ & _ & [H|H]);
      rewrite H; [|rewrite length_app; simpl]; lia.
Qed.

Lemma profile_username_cached_witness :
  read_profile (Sample.env 120) 3
    (snd (profile_username (Sample.env 120) Sample.manager))
  = (Ok ["jane"; "jane"; "jane"],
     snd (profile_username (Sample.env 120) Sample.manager)).
Proof.
  refine (proj1 (profile_username_cached (Sample.env 120) Sample.manager
                   "jane" _ 3 eq_refl _)).
  discriminate.
Defined.

(** C6, as stated, fails twice over.  A read that raises caches nothing, so
    the next read sends the home request again: two reads, two requests.
    And an identifier that comes out as the empty string (the third segment
    of [///user/b]) is stored but never found cached: every read sends the
    request again. *)
Lemma profile_username_refetches :
  (fst (profile_username Sample.env_third_fails Sample.manager)
   = Raise EndpointConnectionError /\
   fst (profile_username Sample.env_third_fails
          (snd (profile_username Sample.env_third_fails Sample.manager)))
   = Ok "jane" /\
   length (sent (session (snd (profile_username Sample.env_third_fails
          (snd (profile_username Sample.env_third_fails Sample.manager))))))
   = (length (sent (session Sample.manager)) + 2)%nat)
  /\
  (fst (profile_username Sample.env_empty_identifier Sample.manager) = Ok "" /\
   fst (profile_username Sample.env_empty_identifier
          (snd (profile_username Sample.env_empty_identifier Sample.manager)))
   = Ok "" /\
   length (sent (session (snd (profile_username Sample.env_empty_identifier
          (snd (profile_username Sample.env_empty_identifier
                  Sample.manager))))))
   = (length (sent (session Sample.manager)) + 2)%nat).
Proof. vm_compute. repeat split. Qed.

(** ** The month listing *)

(** [get] on a dict gives what the object supplies for the key. *)
Lemma dict_get_supplies kvs k : supplies k kvs (dict_get kvs k).
Proof.
  unfold dict_get. induction kvs as [|[k' v'] kvs IH]; simpl.
  - constructor.
  - destruct (String.eqb_spec k k') as [<-|Hne].
    + constructor.
    + constructor; [congruence | exact IH].
Qed.

Lemma Activity__init___dict {S} kvs (s : S) :
  exists a, Activity__init__ (PyDict kvs) s = (Ok a, s) /\
            exposes (PyDict kvs) a /\ unset a.
Proof.
  eexists. split; [|split].
  - unfold Activity__init__, try_except, bind, lift, ret, py_get.
    reflexivity.
  - exists kvs. simpl. repeat split; apply dict_get_supplies.
  - intros []; reflexivity.
Qed.

Lemma Activity__init___effect {S} info (s s' : S) r :
  Activity__init__ info s = (r, s') ->
  s' = s /\ (forall e, r = Raise e -> e = AttributeError).
Proof.
  destruct info;
    unfold Activity__init__, try_except, bind, lift, ret, py_get;
    simpl; intros H; inversion H; subst; split;
    solve [reflexivity | intros e' He; now inversion He].
Qed.

Lemma mapM_Activity__init___effect {S} infos (s s' : S) r :
  mapM Activity__init__ infos s = (r, s') ->
  s' = s /\ (forall e, r = Raise e -> e = AttributeError).
Proof.
  revert r s'. induction infos as [|info infos IH]; intros r s' H.
  - inversion H; subst. split; [reflexivity | discriminate].
  - simpl in H. apply bind_inv in H as [(e & H1 & ->)|(a & s1 & H1 & H2)].
    + apply Activity__init___effect in H1 as [-> H1].
      split; [reflexivity|]. intros e' He. inversion He; subst e'.
      now apply H1.
    + apply Activity__init___effect in H1 as [-> _].
      apply bind_inv in H2 as [(e & H2 & ->)|(l & s2 & H2 & H3)].
      * apply IH in H2 as [-> H2]. split; [reflexivity | exact H2].
      * apply IH in H2 as [-> _]. inversion H3; subst.
        split; [reflexivity | discriminate].
Qed.

Lemma mapM_Activity__init___dicts {S} infos (s : S) :
  Forall is_dict infos ->
  exists records,
    mapM Activity__init__ infos s = (Ok records, s) /\
    Forall2 exposes infos records /\ Forall unset records.
Proof.
  induction 1 as [|info infos [kvs ->] _ (records & IH & IH2 & IH3)].
  - exists []. repeat split; constructor.
  - destruct (Activity__init___dict kvs s) as (a & Ha & Ha2 & Ha3).
    exists (a :: records). simpl.
    rewrite (bind_ok _ _ _ _ _ Ha), (bind_ok _ _ _ _ _ IH).
    repeat split; constructor; assumption.
Qed.

Lemma py_index_raises v k e :
  py_index v k = Raise e -> e = KeyError \/ e = TypeError.
Proof.
  destruct v; simpl; try (intros H; inversion H; now auto).
  destruct (dict_lookup k kvs); intros H; inversion H; auto.
Qed.

Lemma py_iter_raises v e : py_iter v = Raise e -> e = TypeError.
Proof. destruct v; simpl; intros H; now inversion H. Qed.

(** What [get_activities_month] does once the profile is resolved, by the
    site's answer to the listing request. *)
Lemma get_activities_month_unfold env rk month year u rk1 :
  profile_username env rk = (Ok u, rk1) ->
  get_activities_month env month year rk
  = let q := listing_request env rk1 month year in
    let rk2 jar' :=
      set_session (mkSession jar' (sent (session rk1) ++ [q])%list) rk1 in
    match answer env rk1 q with
    | None => (Raise EndpointConnectionError, rk2 (jar (session rk1)))
    | Some resp =>
        let rk3 := rk2 (dict_update (jar (session rk1)) (cookies resp)) in
        match json resp with
        | None => (Raise NoActivitiesFound, rk3)
        | Some top =>
            match py_index top "activities" with
            | Raise _ => (Raise NoActivitiesFound, rk3)
            | Ok activities_month =>
                if truthy activities_month then
                  (of_year <- lift (py_index activities_month
                                      (year_or_today env year)) ;;
                   of_month <- lift (py_index of_year month) ;;
                   activity_details <- lift (py_iter of_month) ;;
                   mapM Activity__init__ activity_details) rk3
                else (Raise NoActivityInMonth, rk3)
            end
        end
    end.
Proof.
  intros Hp. pose proof (profile_username_returns _ _ _ _ Hp) as Hu.
  unfold get_activities_month. rewrite (bind_ok _ _ _ _ _ Hp).
  unfold listing_request, answer. rewrite Hu. cbv zeta.
  unfold bind at 1. unfold get at 1. cbv iota beta.
  unfold bind at 1.
  unfold try_except_all at 1, on_session, zoom, session_get.
  rewrite request_outcome. simpl session.
  destruct (server env _ _) as [resp|]; [|reflexivity].
  unfold bind at 1. unfold try_except_all, lift at 1.
  destruct (json resp) as [top|]; [|reflexivity].
  destruct (py_index top "activities") as [acts|]; [|reflexivity].
  destruct (truthy acts); reflexivity.
Qed.

(** C8.  When the listing has [N] entries under [activities[year][month]],
    each of them a JSON object, [get_activities_month] returns [N] records,
    the [i]-th built from the [i]-th entry and holding in each of its eight
    summary fields the value the entry binds the field's key to ([None]
    when the entry has no such key), with the five caches unset. *)
Theorem get_activities_month_in_order
  env rk month year u rk1 resp top acts of_year entries :
  profile_username env rk = (Ok u, rk1) ->
  answer env rk1 (listing_request env rk1 month year) = Some resp ->
  json resp = Some top ->
  py_index top "activities" = Ok acts ->
  py_index acts (year_or_today env year) = Ok of_year ->
  py_index of_year month = Ok (PyList entries) ->
  Forall is_dict entries ->
  exists records rk2,
    get_activities_month env month year rk = (Ok records, rk2) /\
    length records = length entries /\
    Forall2 exposes entries records /\
    Forall unset records.
Proof.
  intros Hp Hans Hjson Htop Hyear Hmonth Hentries.
  rewrite (get_activities_month_unfold env rk month year u rk1 Hp). cbv zeta.
  rewrite Hans, Hjson, Htop.
  assert (Ht : truthy acts = true).
  { destruct acts; try discriminate. destruct kvs; [discriminate|reflexivity]. }
  rewrite Ht.
  match goal with |- context [bind _ _ ?s] => set (rk3 := s) end.
  destruct (mapM_Activity__init___dicts entries rk3 Hentries) as (records & Hm & HF & HU).
  exists records, rk3. split; [|split; [|split]]; trivial.
  - unfold bind at 1, lift at 1. rewrite Hyear.
    unfold bind at 1, lift at 1. rewrite Hmonth.
    unfold bind at 1, lift at 1. simpl py_iter. cbv iota. exact Hm.
  - symmetry. eapply Forall2_length; eassumption.
Qed.

Lemma get_activities_month_in_order_witness :
  exists records rk2,
    get_activities_month (Sample.env 120) "Jan" (Some "2024") Sample.manager
    = (Ok records, rk2) /\
    length records = 2%nat /\
    Forall2 exposes [Sample.entry 42 "Morning run";
                     Sample.entry 43 "Evening run"] records /\
    Forall unset records /\
    map activity_id records = [PyInt 42; PyInt 43] /\
    map caption records = [PyStr "Morning run"; PyStr "Evening run"] /\
    map username records = [PyStr "jane"; PyStr "jane"] /\
    map distance records = [PyStr "3.1"; PyStr "3.1"] /\
    map distance_units records = [PyStr "mi"; PyStr "mi"] /\
    map elapsed_time records = [PyStr "30:12"; PyStr "30:12"] /\
    map live records = [PyBool false; PyBool false] /\
    map activity_type records = [PyStr "RUN"; PyStr "RUN"].
Proof.
  destruct (get_activities_month_in_order (Sample.env 120) Sample.manager
              "Jan" (Some "2024") "jane" _ Sample.listing _ _ _
              [Sample.entry 42 "Morning run"; Sample.entry 43 "Evening run"]
              eq_refl eq_refl eq_refl eq_refl eq_refl eq_refl)
    as (records & rk2 & Hget & Hlen & Hexp & Hunset).
  { repeat constructor; eexists; reflexivity. }
  exists records, rk2.
  split; [exact Hget|]. split; [exact Hlen|]. split; [exact Hexp|].
  split; [exact Hunset|].
  assert (E : Ok records
              = fst (get_activities_month (Sample.env 120) "Jan"
                       (Some "2024") Sample.manager))
    by (rewrite Hget; reflexivity).
  vm_compute in E. injection E as ->. repeat split.
Defined.

(** C4, as the code has it.  When the listing parses as JSON and has the
    top-level key, [get_activities_month] raises [NoActivityInMonth] exactly
    when the value under that key is empty (falsy); the test comes before
    the value is indexed with the year and the month, so an empty value of
    any type raises [NoActivityInMonth] and no indexing error. *)
Theorem get_activities_month_empty_listing
  env rk month year u rk1 resp top acts :
  profile_username env rk = (Ok u, rk1) ->
  answer env rk1 (listing_request env rk1 month year) = Some resp ->
  json resp = Some top ->
  py_index top "activities" = Ok acts ->
  (fst (get_activities_month env month year rk) = Raise NoActivityInMonth
   <-> truthy acts = false).
Proof.
  intros Hp Hans Hjson Htop.
  rewrite (get_activities_month_unfold env rk month year u rk1 Hp). cbv zeta.
  rewrite Hans, Hjson, Htop.
  destruct (truthy acts); [|split; reflexivity].
  split; [|discriminate]. intros H. exfalso.
  match type of H with context [bind _ _ ?s] => set (rk3 := s) in H end.
  unfold bind at 1, lift at 1 in H.
  destruct (py_index acts (year_or_today env year)) as [of_year|e] eqn:E1.
  2:{ apply py_index_raises in E1 as [-> | ->]; discriminate. }
  unfold bind at 1, lift at 1 in H.
  destruct (py_index of_year month) as [of_month|e] eqn:E2.
  2:{ apply py_index_raises in E2 as [-> | ->]; discriminate. }
  unfold bind at 1, lift at 1 in H.
  destruct (py_iter of_month) as [l|e] eqn:E3.
  2:{ apply py_iter_raises in E3 as ->; discriminate. }
  destruct (mapM Activity__init__ l rk3) as [r s'] eqn:E4.
  apply mapM_Activity__init___effect in E4 as [_ E4].
  simpl in H. subst r. specialize (E4 _ eq_refl). discriminate.
Qed.

Lemma get_activities_month_empty_listing_witness :
  fst (get_activities_month Sample.env_empty_listing "Jan" (Some "2024")
         Sample.manager)
  = Raise NoActivityInMonth.
Proof.
  refine (proj2 (get_activities_month_empty_listing Sample.env_empty_listing
            Sample.manager "Jan" (Some "2024") "jane" _ Sample.empty_listing
            _ _ eq_refl eq_refl eq_refl eq_refl) eq_refl).
Defined.

(** C4, as stated, fails: a listing that has the top-level key, the year and
    the month, with no activity under them, is not empty, and
    [get_activities_month] returns the empty sequence. *)
Lemma get_activities_month_returns_empty :
  fst (get_activities_month Sample.env_empty_month "Jan" (Some "2024")
         Sample.manager)
  = Ok [].
Proof. vm_compute. reflexivity. Qed.

(** C10.  With the profile identifier not yet resolved,
    [get_activities_month] reads [profile_username] first.  If that read
    raises, [get_activities_month] raises the same exception, which is
    [EndpointConnectionError], [ParserRejectedMarkup], [ProfileNotFound] or
    [AttributeError], and the home request is the only request issued.  Otherwise the home request is
    followed by exactly one listing request; [NoActivitiesFound] and
    [NoActivityInMonth] arise only then. *)
Theorem get_activities_month_resolves_profile_first env rk month year :
  __profile_username rk = "" ->
  (forall e rk', profile_username env rk = (Raise e, rk') ->
     get_activities_month env month year rk = (Raise e, rk') /\
     sent (session rk') = (sent (session rk) ++ [home_request rk])%list /\
     (e = EndpointConnectionError \/ e = ParserRejectedMarkup \/
      e = ProfileNotFound \/ e = AttributeError)) /\
  (forall r rk', get_activities_month env month year rk = (r, rk') ->
     (exists e, profile_username env rk = (Raise e, rk') /\ r = Raise e) \/
     (exists u rk1, profile_username env rk = (Ok u, rk1) /\
        sent (session rk')
        = (sent (session rk)
             ++ [home_request rk; listing_request env rk1 month year])%list)).
Proof.
  intros Hempty. split.
  - intros e rk' Hp. split.
    + unfold get_activities_month. now rewrite (bind_raise _ _ _ _ _ Hp).
    + apply profile_username_raises in Hp as (_ & _ & Hs & He). now split.
  - intros r rk' H.
    destruct (profile_username env rk) as [[u|e] rk1] eqn:Hp.
    + right. exists u, rk1. split; [reflexivity|].
      assert (Hs1 : sent (session rk1)
                    = (sent (session rk) ++ [home_request rk])%list).
      { rewrite (profile_username_unfold env rk Hempty) in Hp. cbv zeta in Hp.
        destruct (answer env rk (home_request rk)) as [resp|]; [|discriminate].
        destruct (soup resp) as [document|]; [|discriminate].
        destruct (find profile_re_search (anchors document)); [|discriminate].
        destruct (nth_error _ 2); [|discriminate].
        inversion Hp; subst; reflexivity. }
      assert (Hs2 : sent (session rk')
                    = (sent (session rk1)
                         ++ [listing_request env rk1 month year])%list).
      { rewrite (get_activities_month_unfold env rk month year u rk1 Hp) in H.
        cbv zeta in H.
        destruct (answer env rk1 _) as [resp|];
          [|inversion H; subst; reflexivity].
        destruct (json resp) as [top|]; [|inversion H; subst; reflexivity].
        destruct (py_index top "activities") as [acts|];
          [|inversion H; subst; reflexivity].
        destruct (truthy acts); [|inversion H; subst; reflexivity].
        match type of H with context [bind _ _ ?s] => set (rk3 := s) in H end.
        assert (rk' = rk3) as ->; [|reflexivity].
        unfold bind at 1, lift at 1 in H.
        destruct (py_index acts _); [|now inversion H].
        unfold bind at 1, lift at 1 in H.
        destruct (py_index a month); [|now inversion H].
        unfold bind at 1, lift at 1 in H.
        destruct (py_iter a0); [|now inversion H].
        now apply mapM_Activity__init___effect in H as [-> _]. }
      rewrite Hs2, Hs1, <- app_assoc. reflexivity.
    + left. exists e. unfold get_activities_month in H.
      rewrite (bind_raise _ _ _ _ _ Hp) in H. inversion H; subst. now split.
Qed.

Lemma get_activities_month_resolves_profile_first_witness :
  get_activities_month Sample.env_short_link "Jan" None Sample.manager
  = (Raise ProfileNotFound,
     snd (profile_username Sample.env_short_link Sample.manager)).
Proof.
  exact (proj1 (proj1 (get_activities_month_resolves_profile_first
           Sample.env_short_link Sample.manager "Jan" None eq_refl)
           _ _ eq_refl)).
Defined.

(** ** Authentication *)

(** Construction, by the site's answers to its two requests. *)
Lemma Runkeeper__init___unfold env email password :
  Runkeeper__init__ env email password
  = let rk0 := new_Runkeeper email password in
    match answer env rk0 (login_get rk0) with
    | None => (Raise RequestException, after_failure rk0 (login_get rk0))
    | Some form =>
        let rk1 := after_answer rk0 (login_get rk0) form in
        match soup form with
        | None => (Raise ParserRejectedMarkup, rk1)
        | Some document =>
            match hidden_dict (hidden_inputs document) [] with
            | Raise e => (Raise e, rk1)
            | Ok hidden =>
                let q := login_post rk1 hidden in
                match answer env rk1 q with
                | None => (Raise EndpointConnectionError, after_failure rk1 q)
                | Some resp =>
                    match cookies_get (cookies resp) "checker" with
                    | Raise e => (Raise e, after_answer rk1 q resp)
                    | Ok checker =>
                        if cookie_truthy checker
                        then (Ok true, after_answer rk1 q resp)
                        else (Raise InvalidAuhentication,
                              after_answer rk1 q resp)
                    end
                end
            end
        end
    end.
Proof.
  unfold Runkeeper__init__, __authenticate, __get_hidden_elements.
  unfold bind at 1, get at 1. cbv iota beta.
  unfold bind at 1. unfold bind at 1, get at 1. cbv iota beta.
  unfold bind at 1, on_session at 1, zoom, session_get.
  rewrite request_outcome. unfold answer, login_get. simpl.
  destruct (server env _ _) as [form|]; [|reflexivity].
  unfold bind at 1, lift at 1, bfs.
  destruct (soup form) as [document|]; [|reflexivity].
  unfold bind at 1, lift at 1.
  destruct (hidden_dict (hidden_inputs document) []) as [hidden|e];
    [|reflexivity].
  unfold ret at 1. cbv iota beta.
  unfold bind at 1, try_except_all, on_session, zoom, session_post.
  rewrite request_outcome. simpl.
  destruct (server env _ _) as [resp|]; [|reflexivity].
  unfold bind, lift.
  destruct (cookies_get (cookies resp) "checker") as [checker|];
    [|reflexivity].
  destruct (cookie_truthy checker); reflexivity.
Qed.

(** C3.  What the code does when the transport fails during construction:
    on the [GET] of the login page the exception of [requests] comes out as
    it is, since [__get_hidden_elements] has no [try]; on the [POST] of the
    form it comes out as [EndpointConnectionError]. *)
Theorem login_transport_failure env email password :
  (answer env (new_Runkeeper email password)
     (login_get (new_Runkeeper email password)) = None ->
   fst (Runkeeper__init__ env email password) = Raise RequestException) /\
  (forall form document hidden,
     answer env (new_Runkeeper email password)
       (login_get (new_Runkeeper email password)) = Some form ->
     soup form = Some document ->
     hidden_dict (hidden_inputs document) [] = Ok hidden ->
     answer env (with_login_page email password form)
       (login_post (with_login_page email password form) hidden) = None ->
     fst (Runkeeper__init__ env email password)
     = Raise EndpointConnectionError).
Proof.
  split.
  - intros H. rewrite Runkeeper__init___unfold. cbv zeta. now rewrite H.
  - intros form document hidden H1 Hs H2 H3.
    rewrite Runkeeper__init___unfold. cbv zeta. rewrite H1, Hs, H2.
    unfold with_login_page in H3. now rewrite H3.
Qed.

Lemma login_transport_failure_witness :
  fst (Runkeeper__init__ Sample.env_login_down "jane@example.org" "secret")
  = Raise RequestException.
Proof.
  exact (proj1 (login_transport_failure Sample.env_login_down
                  "jane@example.org" "secret") eq_refl).
Defined.






(** ** The activity record *)

(** [get_activity_details], by the site's answer. *)
Lemma get_activity_details_unfold env aid h :
  get_activity_details env aid h
  = let rk := _runkeeper h in
    let q := details_request rk aid in
    match answer env rk q with
    | None => (Raise EndpointConnectionError,
               set__runkeeper (after_failure rk q) h)
    | Some resp =>
        match json resp with
        | None => (Raise InvalidActivityId,
                   set__runkeeper (after_answer rk q resp) h)
        | Some d => (Ok d, set__runkeeper (after_answer rk q resp) h)
        end
    end.
Proof.
  unfold get_activity_details.
  unfold bind at 1, get at 1. cbv iota beta.
  unfold bind at 1, try_except_all at 1, on_runkeeper, on_session, zoom,
    session_get.
  rewrite request_outcome. unfold answer, details_request. simpl.
  destruct (server env _ _) as [resp|]; [|reflexivity].
  unfold bind, try_except_all, lift, ret.
  destruct (json resp); reflexivity.
Qed.

(** [get_activity_datetime], by the outcome of the profile read and the
    site's answer. *)
Lemma get_activity_datetime_unfold env aid h :
  get_activity_datetime env aid h
  = match profile_username env (_runkeeper h) with
    | (Raise e, rk1) => (Raise e, set__runkeeper rk1 h)
    | (Ok u, rk1) =>
        let q := datetime_request env rk1 aid in
        match answer env rk1 q with
        | None => (Raise EndpointConnectionError,
                   set__runkeeper (after_failure rk1 q) h)
        | Some resp =>
            let h2 := set__runkeeper (after_answer rk1 q resp) h in
            match soup resp with
            | None => (Raise ParserRejectedMarkup, h2)
            | Some document =>
                match subtitle document with
                | None => (Raise TypeError, h2)
                | Some children =>
                    match date_parts children with
                    | Raise e => (Raise e, h2)
                    | Ok parts =>
                        match strptime env (join parts) with
                        | Raise e => (Raise e, h2)
                        | Ok d => (Ok (PyDateTime d), h2)
                        end
                    end
                end
            end
        end
    end.
Proof.
  unfold get_activity_datetime.
  unfold bind at 1, get at 1. cbv iota beta.
  unfold bind at 1, on_runkeeper at 1, zoom at 1.
  destruct (profile_username env (_runkeeper h)) as [[u|e] rk1] eqn:Hp;
    [|reflexivity].
  pose proof (profile_username_returns _ _ _ _ Hp) as Hu.
  destruct (profile_username_effect _ _ _ _ Hp) as (Hsite & _).
  unfold bind at 1, try_except_all at 1, on_runkeeper, on_session, zoom,
    session_get.
  rewrite request_outcome. unfold answer, datetime_request.
  rewrite Hu, Hsite. simpl.
  destruct (server env _ _) as [resp|]; [|reflexivity].
  unfold bind, lift, ret, bfs.
  destruct (soup resp) as [document|]; [|reflexivity].
  destruct (subtitle document) as [children|]; [|reflexivity].
  destruct (date_parts children) as [parts|]; [|reflexivity].
  destruct (strptime env (join parts)); reflexivity.
Qed.

(** [_populate], by the outcomes of its two fetches. *)
Lemma _populate_unfold env h :
  _populate env h
  = match get_activity_details env (activity_id (self h)) h with
    | (Raise e, h1) => (Raise e, h1)
    | (Ok d, h1) =>
        match get_activity_datetime env (activity_id (self h1)) h1 with
        | (Raise e, h2) => (Raise e, h2)
        | (Ok t, h2) =>
            match d with
            | PyDict kvs => (Ok tt, set_self (populated kvs t) h2)
            | _ => (Raise AttributeError, set_self (set___datetime t) h2)
            end
        end
    end.
Proof.
  unfold _populate.
  unfold bind at 1, get at 1. cbv iota beta. unfold bind at 1.
  destruct (get_activity_details env (activity_id (self h)) h)
    as [[d|e] h1]; [|reflexivity].
  unfold bind at 1, get at 1. cbv iota beta. unfold bind at 1.
  destruct (get_activity_datetime env (activity_id (self h1)) h1)
    as [[t|e] h2]; [|reflexivity].
  destruct d; reflexivity.
Qed.

(** The fetches leave the record alone. *)
Lemma get_activity_details_self env aid h r h' :
  get_activity_details env aid h = (r, h') -> self h' = self h.
Proof.
  rewrite get_activity_details_unfold. cbv zeta.
  destruct (answer env _ _) as [resp|]; [destruct (json resp)|];
    intros H; inversion H; reflexivity.
Qed.

Lemma get_activity_datetime_self env aid h r h' :
  get_activity_datetime env aid h = (r, h') -> self h' = self h.
Proof.
  rewrite get_activity_datetime_unfold.
  destruct (profile_username env (_runkeeper h)) as [[u|e] rk1].
  - cbv zeta. destruct (answer env _ _) as [resp|].
    + destruct (soup resp) as [document|];
        [|intros H; inversion H; reflexivity].
      destruct (subtitle document) as [children|].
      * destruct (date_parts children) as [parts|].
        -- destruct (strptime env (join parts));
             intros H; inversion H; reflexivity.
        -- intros H; inversion H; reflexivity.
      * intros H; inversion H; reflexivity.
    + intros H; inversion H; reflexivity.
  - intros H; inversion H; reflexivity.
Qed.

(** What [get_activity_datetime] returns is a [datetime]. *)
Lemma get_activity_datetime_returns env aid h t h' :
  get_activity_datetime env aid h = (Ok t, h') -> exists d, t = PyDateTime d.
Proof.
  rewrite get_activity_datetime_unfold.
  destruct (profile_username env (_runkeeper h)) as [[u|e] rk1];
    [|discriminate].
  cbv zeta. destruct (answer env _ _) as [resp|]; [|discriminate].
  destruct (soup resp) as [document|]; [|discriminate].
  destruct (subtitle document) as [children|]; [|discriminate].
  destruct (date_parts children) as [parts|]; [|discriminate].
  destruct (strptime env (join parts)) as [d|]; [|discriminate].
  intros H; inversion H; eauto.
Qed.

(** A property, by the cache and the outcome of [_populate]. *)
Lemma lazy_unfold env cache h :
  lazy env cache h
  = if truthy (cache (self h)) then (Ok (cache (self h)), h)
    else match _populate env h with
         | (Ok _, h') => (Ok (cache (self h')), h')
         | (Raise e, h') => (Raise e, h')
         end.
Proof.
  unfold lazy, bind, get, ret.
  destruct (truthy (cache (self h))); simpl; [reflexivity|].
  destruct (_populate env h) as [[[]|e] h']; reflexivity.
Qed.

Lemma access_lazy env p : access env p = lazy env (cache p).
Proof. destruct p; reflexivity. Qed.

(** C2, as the code has it.  If [_populate] fails in one of its two fetches
    ([get_activity_details], then [get_activity_datetime]), it raises that
    exception and the record is exactly as before the call, so the next
    access takes the same decision and populates again.  A body that is not
    JSON makes the first fetch raise [InvalidActivityId]; a transport
    failure makes either fetch raise [EndpointConnectionError].  When both
    fetches return and the detail is a JSON object, [_populate] returns and
    the five caches hold the four statistics of the object and the
    timestamp; and whenever [_populate] returns, the five caches were set
    that way. *)
Theorem populate_all_or_nothing env h :
  (forall e h', fetch_fails env h e h' ->
     _populate env h = (Raise e, h') /\ self h' = self h) /\
  (forall resp,
     answer env (_runkeeper h)
       (details_request (_runkeeper h) (activity_id (self h))) = Some resp ->
     json resp = None -> exists h', fetch_fails env h InvalidActivityId h') /\
  (answer env (_runkeeper h)
     (details_request (_runkeeper h) (activity_id (self h))) = None ->
     exists h', fetch_fails env h EndpointConnectionError h') /\
  (forall d h1 u rk1,
     get_activity_details env (activity_id (self h)) h = (Ok d, h1) ->
     profile_username env (_runkeeper h1) = (Ok u, rk1) ->
     answer env rk1 (datetime_request env rk1 (activity_id (self h))) = None ->
     exists h', fetch_fails env h EndpointConnectionError h') /\
  (forall kvs h1 t h2,
     get_activity_details env (activity_id (self h)) h
     = (Ok (PyDict kvs), h1) ->
     get_activity_datetime env (activity_id (self h)) h1 = (Ok t, h2) ->
     _populate env h = (Ok tt, set_self (populated kvs t) h2)) /\
  (forall h', _populate env h = (Ok tt, h') ->
     exists kvs t, self h' = populated kvs t (self h)).
Proof.
  repeat split.
  - destruct H as [H|(d & h1 & H1 & H2)]; rewrite _populate_unfold.
    + now rewrite H.
    + rewrite H1.
      rewrite (get_activity_details_self _ _ _ _ _ H1).
      now rewrite H2.
  - destruct H as [H|(d & h1 & H1 & H2)].
    + eapply get_activity_details_self; eassumption.
    + rewrite (get_activity_datetime_self _ _ _ _ _ H2).
      eapply get_activity_details_self; eassumption.
  - intros resp H1 H2. eexists. left.
    rewrite get_activity_details_unfold. cbv zeta.
    rewrite H1, H2. reflexivity.
  - intros H1. eexists. left.
    rewrite get_activity_details_unfold. cbv zeta.
    rewrite H1. reflexivity.
  - intros d h1 u rk1 H1 H2 H3. eexists. right. exists d, h1.
    split; [exact H1|].
    rewrite get_activity_datetime_unfold, H2. cbv zeta. rewrite H3.
    reflexivity.
  - intros kvs h1 t h2 H1 H2. rewrite _populate_unfold.
    rewrite H1. rewrite (get_activity_details_self _ _ _ _ _ H1).
    now rewrite H2.
  - intros h' H. rewrite _populate_unfold in H.
    destruct (get_activity_details env (activity_id (self h)) h) as [[d|e] h1] eqn:H1;
      [|discriminate].
    rewrite (get_activity_details_self _ _ _ _ _ H1) in H.
    destruct (get_activity_datetime env (activity_id (self h)) h1) as [[t|e] h2] eqn:H2;
      [|discriminate].
    destruct d; try discriminate. inversion H; subst h'.
    exists kvs, t. simpl.
    rewrite (get_activity_datetime_self _ _ _ _ _ H2).
    rewrite (get_activity_details_self _ _ _ _ _ H1). reflexivity.
Qed.

Lemma populate_all_or_nothing_witness :
  exists h',
    _populate Sample.env_fifth_malformed Sample.activity
    = (Raise InvalidActivityId, h') /\
    self h' = self Sample.activity /\
    fst (calories Sample.env_fifth_malformed h') = Ok (PyInt 120).
Proof.
  destruct (proj1 (proj2 (populate_all_or_nothing Sample.env_fifth_malformed
                            Sample.activity)) Sample.no_body
              eq_refl eq_refl) as [h' Hf].
  destruct (proj1 (populate_all_or_nothing Sample.env_fifth_malformed
                     Sample.activity) _ _ Hf) as [Hp Hs].
  exists h'. split; [exact Hp|]. split; [exact Hs|].
  assert (E : h' = snd (_populate Sample.env_fifth_malformed Sample.activity))
    by (rewrite Hp; reflexivity).
  rewrite E. vm_compute. reflexivity.
Defined.

(** C2, as stated, fails: when the detail endpoint answers with JSON that is
    not an object (here the empty array), both fetches return, the timestamp
    is stored, and only then does the first [get] raise: [_populate] fails
    and leaves the record with its timestamp set and its statistics unset. *)
Lemma populate_partial :
  fst (_populate Sample.env_details_array Sample.activity)
  = Raise AttributeError /\
  __datetime (self Sample.activity) = PyNone /\
  __datetime (self (snd (_populate Sample.env_details_array Sample.activity)))
  = PyDateTime (mkDateTime 2024 1 5 14 30 0) /\
  __statsCalories
    (self (snd (_populate Sample.env_details_array Sample.activity)))
  = PyNone.
Proof. vm_compute. repeat split. Qed.

(** *** Counting the fetches *)

Lemma is_details_request_details rk aid :
  is_details_request (site rk) (details_request rk aid) = true.
Proof. apply String.eqb_refl. Qed.

Lemma is_datetime_request_details rk aid :
  is_datetime_request (site rk) (details_request rk aid) = false.
Proof.
  unfold is_datetime_request, details_request; cbn [url].
  rewrite prefix_app_l. reflexivity.
Qed.

Lemma is_details_request_home rk :
  is_details_request (site rk) (home_request rk) = false.
Proof.
  unfold is_details_request, home_request; cbn [url].
  rewrite eqb_app_l. reflexivity.
Qed.

Lemma is_datetime_request_home rk :
  is_datetime_request (site rk) (home_request rk) = false.
Proof.
  unfold is_datetime_request, home_request; cbn [url].
  rewrite prefix_app_l. reflexivity.
Qed.

Lemma is_details_request_datetime env rk aid :
  is_details_request (site rk) (datetime_request env rk aid) = false.
Proof.
  unfold is_details_request, datetime_request; cbn [url].
  rewrite eqb_app_l. reflexivity.
Qed.

Lemma prefix_app_self (s t : string) : String.prefix s (s ++ t) = true.
Proof.
  induction s as [|c s IH]; simpl.
  - destruct t; reflexivity.
  - destruct (ascii_dec c c) as [_|n]; [exact IH | now elim n].
Qed.

Lemma is_datetime_request_datetime env rk aid :
  is_datetime_request (site rk) (datetime_request env rk aid) = true.
Proof.
  unfold is_datetime_request, datetime_request; cbn [url].
  rewrite prefix_app_l. apply prefix_app_self.
Qed.

(** The requests of a [_populate] that returns: the detail request, the
    home request if the profile was not resolved yet, the request for the
    activity page. *)
Lemma _populate_requests env h h' :
  _populate env h = (Ok tt, h') ->
  site (_runkeeper h') = site (_runkeeper h) /\
  exists q1 pre q2,
    requests h' = (requests h ++ q1 :: pre ++ [q2])%list /\
    let s := site (_runkeeper h) in
    is_details_request s q1 = true /\ is_datetime_request s q1 = false /\
    is_details_request s q2 = false /\ is_datetime_request s q2 = true /\
    filter (is_details_request s) pre = [] /\
    filter (is_datetime_request s) pre = [].
Proof.
  intros H. rewrite _populate_unfold in H.
  destruct (get_activity_details env (activity_id (self h)) h)
    as [[d|e] h1] eqn:H1; [|discriminate].
  destruct (get_activity_datetime env (activity_id (self h1)) h1)
    as [[t|e] h2] eqn:H2; [|discriminate].
  destruct d; try discriminate. inversion H; subst h'; clear H.
  rewrite get_activity_details_unfold in H1. cbv zeta in H1.
  destruct (answer env _ _) as [resp1|]; [|discriminate].
  destruct (json resp1); [|discriminate]. inversion H1; subst h1; clear H1.
  rewrite get_activity_datetime_unfold in H2. simpl _runkeeper in H2.
  match type of H2 with
  | context [profile_username env ?r] =>
      destruct (profile_username env r) as [[u|e] rk1] eqn:Hp;
        [|discriminate]
  end.
  cbv zeta in H2.
  destruct (answer env rk1 _) as [resp2|]; [|discriminate].
  destruct (soup resp2) as [document|]; [|discriminate].
  destruct (subtitle document) as [children|]; [|discriminate].
  destruct (date_parts children) as [parts|]; [|discriminate].
  destruct (strptime env (join parts)); [|discriminate].
  inversion H2; subst h2; clear H2.
  destruct (profile_username_effect _ _ _ _ Hp) as (Hsite & _ & _ & Hsent).
  simpl in Hsite. unfold requests. simpl. split; [exact Hsite|].
  set (rk := _runkeeper h) in *.
  set (rka := after_answer rk (details_request rk (activity_id (self h)))
                resp1) in *.
  exists (details_request rk (activity_id (self h))).
  exists (if Nat.eqb (length (sent (session rk1))) (length (sent (session rka)))
          then [] else [home_request rka]).
  exists (datetime_request env rk1 (activity_id (self h))).
  split.
  - destruct Hsent as [Hs|Hs]; rewrite Hs.
    + rewrite Nat.eqb_refl. simpl. now rewrite <- app_assoc.
    + rewrite length_app. simpl.
      replace (length (sent (session rk) ++ [_]) + 1 =? _)%nat with false
        by (symmetry; apply Nat.eqb_neq; lia).
      simpl. now rewrite <- !app_assoc.
  - cbv zeta. split; [apply is_details_request_details|].
    split; [apply is_datetime_request_details|].
    split; [rewrite <- Hsite; apply is_details_request_datetime|].
    split; [rewrite <- Hsite; apply is_datetime_request_datetime|].
    change (site rk) with (site rka).
    destruct (Nat.eqb _ _); cbn [filter]; [split; reflexivity|].
    now rewrite is_details_request_home, is_datetime_request_home.
Qed.

(** A [_populate] that returns has filled the five caches, the timestamp
    with a [datetime]. *)
Lemma _populate_returns env h h' :
  _populate env h = (Ok tt, h') ->
  exists kvs d, self h' = populated kvs (PyDateTime d) (self h).
Proof.
  intros H. rewrite _populate_unfold in H.
  destruct (get_activity_details env (activity_id (self h)) h)
    as [[v|e] h1] eqn:H1; [|discriminate].
  destruct (get_activity_datetime env (activity_id (self h1)) h1)
    as [[t|e] h2] eqn:H2; [|discriminate].
  destruct v; try discriminate. inversion H; subst h'.
  destruct (get_activity_datetime_returns _ _ _ _ _ H2) as [d ->].
  exists kvs, d. simpl.
  rewrite (get_activity_datetime_self _ _ _ _ _ H2).
  rewrite (get_activity_details_self _ _ _ _ _ H1). reflexivity.
Qed.

(** What an object supplies for a key is one value. *)
Lemma supplies_functional k kvs v w :
  supplies k kvs v -> supplies k kvs w -> v = w.
Proof.
  induction 1 as [|v kvs|k' v' kvs v Hne _ IH]; intros Hw; inversion Hw; subst;
    try reflexivity; try congruence.
  now apply IH.
Qed.

(** A [_populate] that returns, by what the site returned: the detail
    request was answered with a JSON object, [get_activity_datetime]
    returned a date, and the five caches hold the four statistics of the
    object and that date. *)
Lemma _populate_from_site env h h' :
  _populate env h = (Ok tt, h') ->
  exists resp kvs d hd ht,
    answer env (_runkeeper h)
      (details_request (_runkeeper h) (activity_id (self h))) = Some resp /\
    json resp = Some (PyDict kvs) /\
    get_activity_details env (activity_id (self h)) h
    = (Ok (PyDict kvs), hd) /\
    get_activity_datetime env (activity_id (self h)) hd
    = (Ok (PyDateTime d), ht) /\
    self h' = populated kvs (PyDateTime d) (self h).
Proof.
  intros H. rewrite _populate_unfold in H.
  destruct (get_activity_details env (activity_id (self h)) h)
    as [[x|e] hd] eqn:H1; [|discriminate].
  pose proof (get_activity_details_self _ _ _ _ _ H1) as E1.
  rewrite E1 in H.
  destruct (get_activity_datetime env (activity_id (self h)) hd)
    as [[t|e] ht] eqn:H2; [|discriminate].
  pose proof (get_activity_datetime_self _ _ _ _ _ H2) as E2.
  destruct x; try discriminate. inversion H; subst h'; clear H.
  destruct (get_activity_datetime_returns _ _ _ _ _ H2) as [d ->].
  pose proof H1 as H1'.
  rewrite get_activity_details_unfold in H1'. cbv zeta in H1'.
  destruct (answer env _ _) as [resp|]; [|discriminate].
  destruct (json resp) as [j|] eqn:Hj; [|discriminate].
  inversion H1'; subst j.
  exists resp, kvs, d, hd, ht. repeat split; try assumption.
  simpl. rewrite E2, E1. reflexivity.
Qed.

(** C1, as the code has it.  On a record whose five caches are unset, a
    first access to any of the five properties that returns has called
    [get_activity_details] once and [get_activity_datetime] once.  After it
    each of the five caches holds what the site returned for its property:
    a statistic what the JSON object of the detail answer supplies for its
    key, the timestamp the date [get_activity_datetime] returned.  A
    further access to a property for which the site returned a truthy value
    (the date always is; a statistic when it is not zero, empty or missing)
    returns that value and leaves everything, the session included, as it
    is: no request is issued. *)
Theorem lazy_population_fetches_once env h p v h1 :
  unset (self h) ->
  access env p h = (Ok v, h1) ->
  details_fetches h1 = (details_fetches h + 1)%nat /\
  datetime_fetches h1 = (datetime_fetches h + 1)%nat /\
  truthy (cache Datetime (self h1)) = true /\
  (forall q, truthy (cache q (self h1)) = true ->
     access env q h1 = (Ok (cache q (self h1)), h1)) /\
  exists resp kvs d hd ht,
    answer env (_runkeeper h)
      (details_request (_runkeeper h) (activity_id (self h))) = Some resp /\
    json resp = Some (PyDict kvs) /\
    get_activity_details env (activity_id (self h)) h
    = (Ok (PyDict kvs), hd) /\
    get_activity_datetime env (activity_id (self h)) hd
    = (Ok (PyDateTime d), ht) /\
    (forall q, returned kvs d q (cache q (self h1))) /\
    (forall q w, returned kvs d q w -> truthy w = true ->
       access env q h1 = (Ok w, h1)).
Proof.
  intros Hunset H. rewrite access_lazy, lazy_unfold, (Hunset p) in H.
  simpl truthy in H. cbv iota in H.
  destruct (_populate env h) as [[[]|e] h'] eqn:Hp; [|discriminate].
  inversion H; subst h' v; clear H.
  destruct (_populate_requests _ _ _ Hp)
    as (Hsite & q1 & pre & q2 & Hreq & Hq).
  cbv zeta in Hq. destruct Hq as (Hq1 & Hq1' & Hq2 & Hq2' & Hpre & Hpre').
  destruct (_populate_from_site _ _ _ Hp)
    as (resp & kvs & d & hd & ht & Hans & Hjson & Hd & Ht & Hself).
  assert (Hret : forall q, returned kvs d q (cache q (self h1))).
  { intros q. rewrite Hself.
    destruct q; simpl; try apply dict_get_supplies. reflexivity. }
  split; [|split; [|split; [|split]]].
  - unfold details_fetches. rewrite Hsite, Hreq.
    rewrite filter_app. cbn [filter]. rewrite Hq1, filter_app. cbn [filter].
    rewrite Hq2, Hpre. rewrite length_app. simpl. lia.
  - unfold datetime_fetches. rewrite Hsite, Hreq.
    rewrite filter_app. cbn [filter]. rewrite Hq1', filter_app. cbn [filter].
    rewrite Hq2', Hpre'. rewrite length_app. simpl. lia.
  - rewrite Hself. reflexivity.
  - intros q Hq. now rewrite access_lazy, lazy_unfold, Hq.
  - exists resp, kvs, d, hd, ht. repeat split; try assumption.
    intros q w Hw Htruthy.
    assert (E : w = cache q (self h1)).
    { specialize (Hret q). destruct q; simpl in Hw, Hret;
        try (eapply supplies_functional; eassumption).
      simpl. congruence. }
    subst w. now rewrite access_lazy, lazy_unfold, Htruthy.
Qed.

Lemma lazy_population_fetches_once_witness :
  details_fetches (snd (access (Sample.env 120) Speed Sample.activity))
  = (details_fetches Sample.activity + 1)%nat /\
  datetime_fetches (snd (access (Sample.env 120) Speed Sample.activity))
  = (datetime_fetches Sample.activity + 1)%nat /\
  access (Sample.env 120) Calories
    (snd (access (Sample.env 120) Speed Sample.activity))
  = (Ok (PyInt 120), snd (access (Sample.env 120) Speed Sample.activity)) /\
  access (Sample.env 120) Pace
    (snd (access (Sample.env 120) Speed Sample.activity))
  = (Ok (PyStr "5:30"), snd (access (Sample.env 120) Speed Sample.activity)).
Proof.
  destruct (lazy_population_fetches_once (Sample.env 120) Sample.activity
              Speed (PyStr "10.9")
              (snd (access (Sample.env 120) Speed Sample.activity)))
    as (Hd & Ht & _ & _ & resp & kvs & d & hd & ht
        & Hans & Hjson & _ & _ & _ & Hno).
  - intros []; reflexivity.
  - reflexivity.
  - vm_compute in Hans. injection Hans as <-.
    vm_compute in Hjson. injection Hjson as <-.
    split; [exact Hd|]. split; [exact Ht|]. split.
    + apply (Hno Calories); [|reflexivity]. simpl. constructor.
    + apply (Hno Pace); [|reflexivity]. simpl.
      do 2 (constructor; [discriminate|]). constructor.
Defined.

(** C1, as stated, fails for a statistic the endpoint returns as zero: the
    cache holds [0], which the accessor takes for unset, so a second access
    to [calories] calls both fetches again. *)
Lemma zero_statistic_refetched :
  unset (self Sample.zero_activity) /\
  calories (Sample.env 0) Sample.zero_activity
  = (Ok (PyInt 0), Sample.zero_activity_read) /\
  fst (calories (Sample.env 0) Sample.zero_activity_read) = Ok (PyInt 0) /\
  details_fetches (snd (calories (Sample.env 0) Sample.zero_activity_read))
  = (details_fetches Sample.zero_activity_read + 1)%nat /\
  datetime_fetches (snd (calories (Sample.env 0) Sample.zero_activity_read))
  = (datetime_fetches Sample.zero_activity_read + 1)%nat.
Proof.
  split; [intros []; reflexivity|]. vm_compute. repeat split.
Qed.

(** *** The timestamp *)

Lemma strptime_subtitle env :
  strptime env "Mon Jan 05 14:30:00 UTC 2024"
  = Ok (mkDateTime 2024 1 5 14 30 0).
Proof. reflexivity. Qed.

(** C9.  When the subtitle element of the activity page has the one text
    child ["Mon Jan 05 14:30:00 UTC 2024 - 3.1 mi"], [get_activity_datetime]
    cuts it at the first [-], strips the trailing blank and parses the rest
    to 2024-01-05 14:30:00; on a record with no timestamp yet, whose detail
    fetch returns a JSON object, the [datetime] property returns that
    timestamp. *)
Theorem datetime_of_subtitle env h kvs h1 u rk2 resp document :
  truthy (__datetime (self h)) = false ->
  get_activity_details env (activity_id (self h)) h = (Ok (PyDict kvs), h1) ->
  profile_username env (_runkeeper h1) = (Ok u, rk2) ->
  answer env rk2 (datetime_request env rk2 (activity_id (self h)))
  = Some resp ->
  soup resp = Some document ->
  subtitle document
  = Some [NavigableString "Mon Jan 05 14:30:00 UTC 2024 - 3.1 mi"] ->
  fst (get_activity_datetime env (activity_id (self h)) h1)
  = Ok (PyDateTime (mkDateTime 2024 1 5 14 30 0)) /\
  fst (datetime env h) = Ok (PyDateTime (mkDateTime 2024 1 5 14 30 0)).
Proof.
  intros Hunset Hd Hp Hans Hsoup Hsub.
  assert (Ht : exists h2,
             get_activity_datetime env (activity_id (self h)) h1
             = (Ok (PyDateTime (mkDateTime 2024 1 5 14 30 0)), h2)).
  { rewrite get_activity_datetime_unfold, Hp. cbv zeta.
    rewrite Hans, Hsoup, Hsub.
    change (date_parts [NavigableString "Mon Jan 05 14:30:00 UTC 2024 - 3.1 mi"])
      with (@Ok (list string) ["Mon Jan 05 14:30:00 UTC 2024"]).
    cbv iota beta.
    change (join ["Mon Jan 05 14:30:00 UTC 2024"])
      with "Mon Jan 05 14:30:00 UTC 2024".
    rewrite strptime_subtitle. eauto. }
  destruct Ht as [h2 Ht]. split; [now rewrite Ht|].
  unfold datetime. rewrite lazy_unfold, Hunset, _populate_unfold, Hd.
  rewrite (get_activity_details_self _ _ _ _ _ Hd), Ht. reflexivity.
Qed.

Lemma datetime_of_subtitle_witness :
  fst (get_activity_datetime (Sample.env 120)
         (activity_id (self Sample.activity))
         (snd (get_activity_details (Sample.env 120)
                 (activity_id (self Sample.activity)) Sample.activity)))
  = Ok (PyDateTime (mkDateTime 2024 1 5 14 30 0)) /\
  fst (datetime (Sample.env 120) Sample.activity)
  = Ok (PyDateTime (mkDateTime 2024 1 5 14 30 0)).
Proof.
  exact (datetime_of_subtitle (Sample.env 120) Sample.activity
           [("statsCalories", PyInt 120); ("statsElevation", PyInt 5);
            ("statsPace", PyStr "5:30"); ("statsSpeed", PyStr "10.9")]
           (snd (get_activity_details (Sample.env 120)
                   (activity_id (self Sample.activity)) Sample.activity))
           "jane"
           (_runkeeper (snd (get_activity_details (Sample.env 120)
                   (activity_id (self Sample.activity)) Sample.activity)))
           Sample.activity_page
           (mkSoup [] []
              (Some [NavigableString "Mon Jan 05 14:30:00 UTC 2024 - 3.1 mi"]))
           eq_refl eq_refl eq_refl eq_refl eq_refl eq_refl).
Defined.

(** ** The model on the sample site *)

Example strptime_lenient :
  strptime (Sample.env 120) "fri  feb 9 4:3:0 gmt 2023"
  = Ok (mkDateTime 2023 2 9 4 3 0).
Proof. reflexivity. Qed.

Example strptime_checks_date :
  strptime (Sample.env 120) "Fri Feb 30 14:30:00 UTC 2024" = Raise ValueError.
Proof. reflexivity. Qed.

Example strptime_needs_zone :
  strptime (Sample.env 120) "Mon Jan 05 14:30:00 CET 2024" = Raise ValueError.
Proof. reflexivity. Qed.

Example login_ok :
  fst (Runkeeper__init__ (Sample.env 120) "jane@example.org" "secret")
  = Ok true
  /\ jar (session Sample.manager) = [("JSESSIONID", "n0"); ("checker", "c1")]
  /\ map url (sent (session Sample.manager))
     = ["https://runkeeper.com/login"; "https://runkeeper.com/login"].
Proof. repeat split. Qed.

Example profile_ok :
  fst (profile_username (Sample.env 120) Sample.manager) = Ok "jane".
Proof. reflexivity. Qed.

Example listing_ok :
  match Sample.activities 120 with
  | (Ok l, _) => map activity_id l = [PyInt 42; PyInt 43]
  | _ => False
  end.
Proof. reflexivity. Qed.

Example calories_ok :
  fst (calories (Sample.env 120) Sample.activity) = Ok (PyInt 120)
  /\ map url (requests (snd (calories (Sample.env 120)
                               Sample.activity)))
     = ["https://runkeeper.com/login"; "https://runkeeper.com/login";
        "https://runkeeper.com/home";
        "https://runkeeper.com/activitiesByDateRange";
        "https://runkeeper.com/ajax/pointData";
        "https://runkeeper.com/user/jane/activity/42"].
Proof. split; reflexivity. Qed.

(** The four statistics come out as the detail mapping has them. *)
Example statistics_untransformed :
  map (fun p => cache p (self (snd (calories (Sample.env 120)
                                      Sample.activity))))
      [Calories; Elevation; Pace; Speed]
  = [PyInt 120; PyInt 5; PyStr "5:30"; PyStr "10.9"].
Proof. reflexivity. Qed.

(** * Further properties *)

(** ** Construction *)

Lemma hidden_dict_lookup form : forall acc d k,
  hidden_dict form acc = Ok d ->
  dict_lookup k d
  = match last_hidden k form with
    | Some v => Some v
    | None => dict_lookup k acc
    end.
Proof.
  induction form as [|element rest IH]; intros acc d k H; simpl in *.
  - now inversion H.
  - destruct (attr_name element) as [n|]; [|discriminate].
    destruct (attr_value element) as [v|]; [|discriminate].
    rewrite (IH _ _ k H).
    destruct (last_hidden k rest); [reflexivity|].
    rewrite dict_lookup_set. destruct (String.eqb k n); reflexivity.
Qed.

Lemma hidden_dict_raises form : forall acc,
  forallb complete form = false -> hidden_dict form acc = Raise KeyError.
Proof.
  induction form as [|element rest IH]; intros acc H; simpl in *.
  - discriminate.
  - unfold complete in H.
    destruct (attr_name element) as [n|]; [|reflexivity].
    destruct (attr_value element) as [v|]; [|reflexivity].
    simpl in H. now apply IH.
Qed.

(** If construction gets as far as a second request, that request is the
    [POST] of the login form, and its form data has the given e-mail and
    password under [email] and [password], whatever hidden inputs of those
    names the login page has; every other key carries the value of the last
    hidden input of that name. *)
Theorem login_post_carries_credentials env e p form document r rk q :
  answer env (new_Runkeeper e p) (login_get (new_Runkeeper e p)) = Some form ->
  soup form = Some document ->
  Runkeeper__init__ env e p = (r, rk) ->
  nth_error (sent (session rk)) 1 = Some q ->
  meth q = POST /\
  url q = "https://runkeeper.com/login" /\
  dict_lookup "email" (data q) = Some e /\
  dict_lookup "password" (data q) = Some p /\
  (forall k, k <> "email" -> k <> "password" ->
     dict_lookup k (data q) = last_hidden k (hidden_inputs document)).
Proof.
  intros Hform Hsoup H Hq. rewrite Runkeeper__init___unfold in H.
  cbv zeta in H. rewrite Hform, Hsoup in H.
  destruct (hidden_dict (hidden_inputs document) []) as [hidden|x] eqn:Hh.
  2:{ inversion H; subst rk. discriminate. }
  assert (Eq : q = login_post
                     (after_answer (new_Runkeeper e p)
                        (login_get (new_Runkeeper e p)) form) hidden).
  { destruct (answer env _ (login_post _ hidden)) as [resp|];
      [destruct (cookies_get (cookies resp) "checker") as [checker|];
       [destruct (cookie_truthy checker)|]|];
      inversion H; subst rk; simpl in Hq; now inversion Hq. }
  subst q. unfold login_post. cbn [meth url data site after_answer
                                     set_session new_Runkeeper email password].
  repeat split.
  - rewrite !dict_lookup_set. reflexivity.
  - rewrite dict_lookup_set. reflexivity.
  - intros k Hk1 Hk2. rewrite !dict_lookup_set.
    apply String.eqb_neq in Hk1, Hk2. rewrite Hk1, Hk2.
    rewrite (hidden_dict_lookup _ _ _ k Hh). simpl.
    destruct (last_hidden k (hidden_inputs document)); reflexivity.
Qed.

Lemma login_post_carries_credentials_witness :
  exists q,
    nth_error (sent (session Sample.manager)) 1 = Some q /\
    dict_lookup "email" (data q) = Some "jane@example.org" /\
    dict_lookup "password" (data q) = Some "secret" /\
    dict_lookup "_eventName" (data q) = Some "submit".
Proof.
  eexists. split; [reflexivity|].
  destruct (login_post_carries_credentials (Sample.env 120)
              "jane@example.org" "secret" Sample.login_page
              (mkSoup [mkHidden (Some "_eventName") (Some "submit");
                       mkHidden (Some "redirectUrl") (Some "")] [] None)
              (Ok true) Sample.manager _ eq_refl eq_refl eq_refl eq_refl)
    as (_ & _ & He & Hp & Hk).
  split; [exact He|]. split; [exact Hp|].
  rewrite (Hk "_eventName"); [reflexivity | discriminate | discriminate].
Defined.

(** A hidden input of the login page that lacks its [name] or its [value]
    attribute makes construction raise [KeyError], with the [GET] of the
    login page the only request issued. *)
Theorem hidden_input_without_attribute env e p form document :
  answer env (new_Runkeeper e p) (login_get (new_Runkeeper e p)) = Some form ->
  soup form = Some document ->
  forallb complete (hidden_inputs document) = false ->
  Runkeeper__init__ env e p = (Raise KeyError, with_login_page e p form) /\
  sent (session (with_login_page e p form)) = [login_get (new_Runkeeper e p)].
Proof.
  intros Hform Hsoup Hc. rewrite Runkeeper__init___unfold. cbv zeta.
  rewrite Hform, Hsoup, (hidden_dict_raises _ [] Hc). split; reflexivity.
Qed.

Lemma hidden_input_without_attribute_witness :
  fst (Runkeeper__init__ Cases.env_broken_form "jane@example.org" "secret")
  = Raise KeyError.
Proof.
  exact (f_equal fst (proj1 (hidden_input_without_attribute
           Cases.env_broken_form "jane@example.org" "secret"
           Cases.broken_form
           (mkSoup [mkHidden (Some "_eventName") (Some "submit");
                    mkHidden (Some "token") None] [] None)
           eq_refl eq_refl eq_refl))).
Defined.

(** A construction that completes returns [True] and leaves a manager that
    holds the given credentials and the fixed site, has no profile
    identifier yet, and has issued exactly two requests, the [GET] and then
    the [POST] of the login URL. *)
Theorem construction_result env e p b rk :
  Runkeeper__init__ env e p = (Ok b, rk) ->
  b = true /\
  email rk = e /\ password rk = p /\
  site rk = "https://runkeeper.com" /\
  __profile_username rk = "" /\
  map meth (sent (session rk)) = [GET; POST] /\
  map url (sent (session rk))
  = ["https://runkeeper.com/login"; "https://runkeeper.com/login"].
Proof.
  intros H. rewrite Runkeeper__init___unfold in H. cbv zeta in H.
  destruct (answer env _ _) as [form|]; [|discriminate].
  destruct (soup form) as [document|]; [|discriminate].
  destruct (hidden_dict (hidden_inputs document) []) as [hidden|];
    [|discriminate].
  destruct (answer env _ _) as [resp|]; [|discriminate].
  destruct (cookies_get (cookies resp) "checker") as [checker|];
    [|discriminate].
  destruct (cookie_truthy checker); [|discriminate].
  inversion H; subst b rk. repeat split.
Qed.

Lemma construction_result_witness :
  email Sample.manager = "jane@example.org" /\
  __profile_username Sample.manager = "" /\
  map meth (sent (session Sample.manager)) = [GET; POST].
Proof.
  destruct (construction_result (Sample.env 120) "jane@example.org" "secret"
              true Sample.manager eq_refl)
    as (_ & He & _ & _ & Hu & Hm & _).
  split; [exact He|]. split; [exact Hu | exact Hm].
Defined.

(** ** The profile identifier, further *)

Lemma split_no_sep (sep : ascii) (a b : string) :
  has_char sep a = false ->
  split sep (a ++ String sep b) = a :: split sep b.
Proof.
  induction a as [|c a IH]; simpl; intros H.
  - now rewrite Ascii.eqb_refl.
  - apply Bool.orb_false_iff in H as [Hc Ha].
    rewrite Hc, (IH Ha). reflexivity.
Qed.

(** On a first read, when the first link of the home page is
    [/user/<id>/profile] with an [<id>] that starts with a letter and has
    no [/] in it, [profile_username] returns [<id>] and caches it. *)
Theorem profile_username_of_link env rk resp document id rest :
  __profile_username rk = "" ->
  answer env rk (home_request rk) = Some resp ->
  soup resp = Some document ->
  anchors document = ("/user/" ++ id ++ "/profile") :: rest ->
  starts_with_letter id = true ->
  has_char "/" id = false ->
  exists rk',
    profile_username env rk = (Ok id, rk') /\ __profile_username rk' = id.
Proof.
  intros Hempty Hans Hsoup Hlinks Hletter Hslash.
  rewrite (profile_username_unfold env rk Hempty). cbv zeta.
  rewrite Hans, Hsoup, Hlinks.
  assert (Hm : profile_re_search ("/user/" ++ id ++ "/profile") = true).
  { destruct id as [|c id]; [discriminate|]. simpl in Hletter.
    cbn [profile_re_search]. apply Bool.orb_true_iff. left.
    unfold profile_re_at. apply Bool.orb_true_iff. left.
    simpl. now rewrite Hletter. }
  cbn [find]. rewrite Hm.
  assert (Hs : nth_error (split "/" ("/user/" ++ id ++ "/profile")) 2
               = Some id).
  { change ("/user/" ++ id ++ "/profile")
      with (String "/" (String "u" (String "s" (String "e" (String "r"
             (String "/" (id ++ String "/" "profile"))))))).
    cbn [split Ascii.eqb Bool.eqb].
    rewrite (split_no_sep "/" id "profile" Hslash). reflexivity. }
  rewrite Hs. eexists. split; reflexivity.
Qed.

Lemma profile_username_of_link_witness :
  exists rk',
    profile_username
      (Sample.env_with GET "https://runkeeper.com/home"
         (Some (parsed [] None [] ["/user/jane/profile"; "/about"] None)))
      Sample.manager
    = (Ok "jane", rk') /\ __profile_username rk' = "jane".
Proof.
  exact (profile_username_of_link
           (Sample.env_with GET "https://runkeeper.com/home"
              (Some (parsed [] None [] ["/user/jane/profile"; "/about"]
                       None)))
           Sample.manager
           (parsed [] None [] ["/user/jane/profile"; "/about"] None)
           (mkSoup [] ["/user/jane/profile"; "/about"] None)
           "jane" ["/about"] eq_refl eq_refl eq_refl eq_refl eq_refl eq_refl).
Defined.



(** ** The month listing, further *)

(** The part of [get_activities_month] after the emptiness test: it leaves
    the manager alone, and raises nothing but [KeyError], [TypeError] and
    [AttributeError]. *)
Lemma listing_records_effect
  (activities_month : value) (year month : string) (rk rk' : Runkeeper) r :
  (of_year <- lift (py_index activities_month year) ;;
   of_month <- lift (py_index of_year month) ;;
   activity_details <- lift (py_iter of_month) ;;
   mapM Activity__init__ activity_details) rk = (r, rk') ->
  rk' = rk /\
  (forall e, r = Raise e -> In e [KeyError; TypeError; AttributeError]).
Proof.
  intros H.
  unfold bind at 1, lift at 1 in H.
  destruct (py_index activities_month year) as [of_year|e] eqn:E1.
  2:{ inversion H; subst. split; [reflexivity|]. intros e' He.
      inversion He; subst e'.
      apply py_index_raises in E1 as [-> | ->]; simpl; auto. }
  unfold bind at 1, lift at 1 in H.
  destruct (py_index of_year month) as [of_month|e] eqn:E2.
  2:{ inversion H; subst. split; [reflexivity|]. intros e' He.
      inversion He; subst e'.
      apply py_index_raises in E2 as [-> | ->]; simpl; auto. }
  unfold bind at 1, lift at 1 in H.
  destruct (py_iter of_month) as [l|e] eqn:E3.
  2:{ inversion H; subst. split; [reflexivity|]. intros e' He.
      inversion He; subst e'.
      apply py_iter_raises in E3 as ->; simpl; auto. }
  apply mapM_Activity__init___effect in H as [-> H].
  split; [reflexivity|]. intros e He. rewrite (H e He). simpl; auto.
Qed.

(** Once the profile is resolved, [get_activities_month] raises
    [EndpointConnectionError] when the transport fails on the listing
    request, and raises [NoActivitiesFound] exactly when the body is not
    JSON, is JSON but not an object, or is an object without the key
    [activities]. *)
Theorem get_activities_month_listing_errors env rk month year u rk1 :
  profile_username env rk = (Ok u, rk1) ->
  (answer env rk1 (listing_request env rk1 month year) = None ->
   fst (get_activities_month env month year rk)
   = Raise EndpointConnectionError) /\
  (forall resp,
     answer env rk1 (listing_request env rk1 month year) = Some resp ->
     (fst (get_activities_month env month year rk) = Raise NoActivitiesFound
      <-> match json resp with
          | Some (PyDict kvs) => dict_lookup "activities" kvs = None
          | _ => True
          end)).
Proof.
  intros Hp. rewrite (get_activities_month_unfold env rk month year u rk1 Hp).
  cbv zeta. split.
  - intros ->. reflexivity.
  - intros resp ->.
    destruct (json resp) as [top|]; [|split; trivial].
    destruct top; cbn [py_index]; try solve [split; trivial].
    destruct (dict_lookup "activities" kvs) as [acts|]; [|split; trivial].
    split; [|discriminate]. intros H. exfalso.
    destruct (truthy acts); [|discriminate].
    match type of H with
    | fst (?m ?s) = _ => destruct (m s) as [r s'] eqn:E
    end.
    apply listing_records_effect in E as [_ E]. simpl in H. subst r.
    destruct (E _ eq_refl) as [X|[X|[X|[]]]]; discriminate.
Qed.

Lemma get_activities_month_listing_errors_witness :
  fst (get_activities_month Cases.env_no_key "Jan" (Some "2024")
         Sample.manager)
  = Raise NoActivitiesFound.
Proof.
  exact (proj2 (proj2 (get_activities_month_listing_errors Cases.env_no_key
           Sample.manager "Jan" (Some "2024") "jane" _ eq_refl)
           Cases.no_key eq_refl) eq_refl).
Defined.

(** A listing that is not empty but has no entry for the year, or has the
    year without the month, makes [get_activities_month] raise the bare
    [KeyError] of the indexing. *)
Theorem get_activities_month_missing_key
  env rk month year u rk1 resp top kvs :
  profile_username env rk = (Ok u, rk1) ->
  answer env rk1 (listing_request env rk1 month year) = Some resp ->
  json resp = Some top ->
  py_index top "activities" = Ok (PyDict kvs) ->
  kvs <> [] ->
  (dict_lookup (year_or_today env year) kvs = None \/
   exists of_year,
     dict_lookup (year_or_today env year) kvs = Some (PyDict of_year) /\
     dict_lookup month of_year = None) ->
  fst (get_activities_month env month year rk) = Raise KeyError.
Proof.
  intros Hp Hans Hjson Htop Hne Hmiss.
  rewrite (get_activities_month_unfold env rk month year u rk1 Hp). cbv zeta.
  rewrite Hans, Hjson, Htop.
  destruct kvs as [|kv kvs]; [now elim Hne|]. cbn [truthy].
  unfold bind at 1, lift at 1. cbn [py_index].
  destruct Hmiss as [H|(of_year & H1 & H2)].
  - rewrite H. reflexivity.
  - rewrite H1. unfold bind at 1, lift at 1. cbn [py_index]. rewrite H2.
    reflexivity.
Qed.

Lemma get_activities_month_missing_key_witness :
  fst (get_activities_month Cases.env_other_year "Jan" (Some "2024")
         Sample.manager)
  = Raise KeyError.
Proof.
  refine (get_activities_month_missing_key Cases.env_other_year
            Sample.manager "Jan" (Some "2024") "jane" _ Cases.other_year _
            [("2023", PyDict [])] eq_refl eq_refl eq_refl eq_refl _
            (or_introl eq_refl)).
  discriminate.
Defined.

Lemma str_of_Z_not_empty z : str_of_Z z <> "".
Proof.
  unfold str_of_Z. destruct (Z.to_int z) as [d|d]; simpl;
    [destruct d; discriminate | discriminate].
Qed.

(** Leaving the year out, or passing the empty string for it, is the same
    as passing the current year in decimal. *)
Theorem get_activities_month_default_year env month rk :
  get_activities_month env month None rk
  = get_activities_month env month (Some (str_of_Z (today_year env))) rk /\
  get_activities_month env month (Some "") rk
  = get_activities_month env month (Some (str_of_Z (today_year env))) rk.
Proof.
  assert (E : year_or_today env (Some (str_of_Z (today_year env)))
              = str_of_Z (today_year env)).
  { unfold year_or_today, str_truthy.
    pose proof (str_of_Z_not_empty (today_year env)) as H.
    apply String.eqb_neq in H. now rewrite H. }
  unfold get_activities_month. rewrite E. split; reflexivity.
Qed.

(** When one of the entries under [activities[year][month]] is not a JSON
    object, [get_activities_month] raises [AttributeError] and returns no
    record at all. *)
Theorem get_activities_month_bad_entry
  env rk month year u rk1 resp top acts of_year entries :
  profile_username env rk = (Ok u, rk1) ->
  answer env rk1 (listing_request env rk1 month year) = Some resp ->
  json resp = Some top ->
  py_index top "activities" = Ok acts ->
  py_index acts (year_or_today env year) = Ok of_year ->
  py_index of_year month = Ok (PyList entries) ->
  forallb is_dictb entries = false ->
  fst (get_activities_month env month year rk) = Raise AttributeError.
Proof.
  intros Hp Hans Hjson Htop Hyear Hmonth Hbad.
  rewrite (get_activities_month_unfold env rk month year u rk1 Hp). cbv zeta.
  rewrite Hans, Hjson, Htop.
  assert (Ht : truthy acts = true).
  { destruct acts; try discriminate. destruct kvs; [discriminate|reflexivity]. }
  rewrite Ht.
  match goal with |- context [bind _ _ ?s] => generalize s; intros rk3 end.
  unfold bind at 1, lift at 1. rewrite Hyear.
  unfold bind at 1, lift at 1. rewrite Hmonth.
  unfold bind at 1, lift at 1. cbn [py_iter].
  clear - Hbad. induction entries as [|info infos IH]; [discriminate|].
  cbn [mapM]. simpl in Hbad.
  destruct info; try reflexivity.
  destruct (Activity__init___dict kvs rk3) as (a & Ha & _).
  rewrite (bind_ok _ _ _ _ _ Ha).
  simpl in Hbad. specialize (IH Hbad).
  destruct (mapM Activity__init__ infos rk3) as [[l|e] s] eqn:E;
    simpl in IH; [discriminate|]. injection IH as ->.
  unfold bind. rewrite E. reflexivity.
Qed.

Lemma get_activities_month_bad_entry_witness :
  fst (get_activities_month Cases.env_bad_entry "Jan" (Some "2024")
         Sample.manager)
  = Raise AttributeError.
Proof.
  exact (get_activities_month_bad_entry Cases.env_bad_entry Sample.manager
           "Jan" (Some "2024") "jane" _ Cases.bad_entry _ _ _
           [Sample.entry 42 "Morning run"; PyInt 7]
           eq_refl eq_refl eq_refl eq_refl eq_refl eq_refl eq_refl).
Defined.



(** With a non-empty profile identifier already cached,
    [get_activities_month] issues exactly one request, whatever the outcome:
    the [GET] of the listing URL with the cached identifier as [userName]
    and [<month>-01-<year>] as [startDate]; the home page is not fetched
    again and the cached identifier stays. *)
Theorem get_activities_month_uses_cached_profile env rk month year r rk' :
  __profile_username rk <> "" ->
  get_activities_month env month year rk = (r, rk') ->
  sent (session rk')
  = (sent (session rk) ++ [listing_request env rk month year])%list /\
  __profile_username rk' = __profile_username rk /\
  site rk' = site rk.
Proof.
  intros Hc H.
  rewrite (get_activities_month_unfold env rk month year _ rk
             (profile_username_hit env rk Hc)) in H.
  cbv zeta in H.
  destruct (answer env rk _) as [resp|];
    [|inversion H; subst; repeat split].
  destruct (json resp) as [top|]; [|inversion H; subst; repeat split].
  destruct (py_index top "activities") as [acts|];
    [|inversion H; subst; repeat split].
  destruct (truthy acts); [|inversion H; subst; repeat split].
  apply listing_records_effect in H as [-> _]. repeat split.
Qed.

Lemma get_activities_month_uses_cached_profile_witness :
  sent (session (snd (get_activities_month (Sample.env 120) "Jan" None
                        Cases.resolved)))
  = (sent (session Cases.resolved)
       ++ [listing_request (Sample.env 120) Cases.resolved "Jan" None])%list.
Proof.
  refine (proj1 (get_activities_month_uses_cached_profile (Sample.env 120)
            Cases.resolved "Jan" None
            (fst (get_activities_month (Sample.env 120) "Jan" None
                    Cases.resolved))
            _ _ _)).
  - discriminate.
  - apply surjective_pairing.
Defined.

(** ** The activity record, further *)

Lemma split_not_nil sep s : split sep s <> [].
Proof.
  destruct s as [|c r]; simpl; [discriminate|].
  destruct (Ascii.eqb c sep); [discriminate|].
  destruct (split sep r); discriminate.
Qed.

Lemma date_parts_raises form e :
  date_parts form = Raise e -> e = TypeError \/ e = IndexError.
Proof.
  induction form as [|[s|[|]] rest IH]; cbn [date_parts].
  - discriminate.
  - unfold list_index.
    destruct (split "-" s) as [|part parts] eqn:E;
      [now apply split_not_nil in E|].
    cbn [nth_error].
    destruct (date_parts rest); [discriminate|].
    intros H; inversion H; subst. now apply IH.
  - intros H; inversion H; now right.
  - intros H; inversion H; now left.
Qed.

Lemma strptime_raises env s e : strptime env s = Raise e -> e = ValueError.
Proof.
  unfold strptime.
  match goal with |- context [match ?x with _ => _ end] => destruct x as [t|] end.
  - destruct t as [[[[[y m] d] H] Mi] Se]. unfold make_datetime.
    match goal with |- context [if ?b then _ else _] => destruct b end;
      intros X; now inversion X.
  - intros X; now inversion X.
Qed.

(** [get_activity_details] issues its one request and leaves the manager's
    site and profile identifier alone. *)
Lemma get_activity_details_effect env aid h r h' :
  get_activity_details env aid h = (r, h') ->
  requests h' = (requests h ++ [details_request (_runkeeper h) aid])%list /\
  site (_runkeeper h') = site (_runkeeper h) /\
  __profile_username (_runkeeper h') = __profile_username (_runkeeper h) /\
  (forall e, r = Raise e ->
     e = EndpointConnectionError \/ e = InvalidActivityId).
Proof.
  rewrite get_activity_details_unfold. cbv zeta.
  destruct (answer env _ _) as [resp|]; [destruct (json resp)|];
    intros H; inversion H; subst; repeat split;
    intros e' He; inversion He; auto.
Qed.

(** [get_activity_datetime] issues at most two requests, and raises nothing
    but what the profile read raises, [EndpointConnectionError],
    [ParserRejectedMarkup], [TypeError], [IndexError] and [ValueError]. *)
Lemma get_activity_datetime_effect env aid h r h' :
  get_activity_datetime env aid h = (r, h') ->
  (exists l, requests h' = (requests h ++ l)%list /\ (length l <= 2)%nat) /\
  (forall e, r = Raise e ->
     In e [EndpointConnectionError; ParserRejectedMarkup; ProfileNotFound;
           AttributeError; TypeError; IndexError; ValueError]).
Proof.
  rewrite get_activity_datetime_unfold.
  destruct (profile_username env (_runkeeper h)) as [[u|x] rk1] eqn:Hp.
  - destruct (profile_username_effect _ _ _ _ Hp) as (_ & _ & _ & Hs).
    assert (Hl : exists l0, sent (session rk1)
                            = (sent (session (_runkeeper h)) ++ l0)%list
                            /\ (length l0 <= 1)%nat).
    { destruct Hs as [Hs|Hs]; rewrite Hs.
      - exists []. rewrite app_nil_r. split; [reflexivity | simpl; lia].
      - eexists. split; [reflexivity | simpl; lia]. }
    destruct Hl as (l0 & Hl0 & Hlen).
    assert (Hreq : forall q, exists l,
               (sent (session rk1) ++ [q]
                = sent (session (_runkeeper h)) ++ l)%list
               /\ (length l <= 2)%nat).
    { intros q. exists (l0 ++ [q])%list. rewrite Hl0, <- app_assoc.
      split; [reflexivity|]. rewrite length_app. simpl. lia. }
    cbv zeta. unfold requests.
    destruct (answer env rk1 _) as [resp|].
    + destruct (soup resp) as [document|].
      * destruct (subtitle document) as [children|].
        -- destruct (date_parts children) as [parts|x] eqn:Hd.
           ++ destruct (strptime env (join parts)) as [d|x] eqn:Ht;
                intros H; inversion H; subst; (split; [apply Hreq|]);
                intros e' He; inversion He; subst.
              apply strptime_raises in Ht as ->. simpl; auto 8.
           ++ intros H; inversion H; subst. split; [apply Hreq|].
              intros e' He; inversion He; subst.
              apply date_parts_raises in Hd as [-> | ->]; simpl; auto 8.
        -- intros H; inversion H; subst. split; [apply Hreq|].
           intros e' He; inversion He; subst. simpl; auto 8.
      * intros H; inversion H; subst. split; [apply Hreq|].
        intros e' He; inversion He; subst. simpl; auto.
    + intros H; inversion H; subst. split; [apply Hreq|].
      intros e' He; inversion He; subst. simpl; auto.
  - intros H; inversion H; subst.
    apply profile_username_raises in Hp as (_ & _ & Hs & He).
    split.
    + exists [home_request (_runkeeper h)]. unfold requests. simpl.
      split; [exact Hs | lia].
    + intros e' X; inversion X; subst.
      destruct He as [->|[->|[->| ->]]]; simpl; auto.
Qed.

(** Reading a property never changes the eight summary fields of the
    record, whether the read returns or raises, and also when [_populate]
    fails half-way. *)
Theorem access_keeps_summary env p h r h' :
  access env p h = (r, h') -> summary (self h') = summary (self h).
Proof.
  rewrite access_lazy, lazy_unfold.
  destruct (truthy (cache p (self h))).
  - intros H; inversion H; reflexivity.
  - rewrite _populate_unfold.
    destruct (get_activity_details env (activity_id (self h)) h)
      as [[d|e] h1] eqn:H1.
    + pose proof (get_activity_details_self _ _ _ _ _ H1) as E1.
      destruct (get_activity_datetime env (activity_id (self h1)) h1)
        as [[t|e] h2] eqn:H2;
        pose proof (get_activity_datetime_self _ _ _ _ _ H2) as E2.
      * destruct d; intros H; inversion H; subst h'; simpl;
          rewrite E2, E1; reflexivity.
      * intros H; inversion H; subst h'. now rewrite E2, E1.
    + intros H; inversion H; subst h'.
      now rewrite (get_activity_details_self _ _ _ _ _ H1).
Qed.

Lemma access_keeps_summary_witness :
  summary (self (snd (_populate Sample.env_details_array Sample.activity)))
  = summary (self Sample.activity) /\
  fst (access Sample.env_details_array Pace Sample.activity)
  = Raise AttributeError.
Proof.
  split; [|reflexivity].
  exact (access_keeps_summary Sample.env_details_array Pace Sample.activity
           (Raise AttributeError)
           (snd (_populate Sample.env_details_array Sample.activity))
           eq_refl).
Defined.

(** A read of a property whose cached value is truthy returns it and
    changes nothing.  A read of a property whose cached value is falsy
    (unset, or a cached zero or empty value) goes to the network every
    time: the next request of the session is the detail request for the
    record's activity id, and at most two more follow. *)
Theorem access_request_count env p h r h' :
  access env p h = (r, h') ->
  (truthy (cache p (self h)) = true ->
     h' = h /\ r = Ok (cache p (self h))) /\
  (truthy (cache p (self h)) = false ->
     exists rest,
       requests h'
       = (requests h
            ++ details_request (_runkeeper h) (activity_id (self h)) :: rest)%list
       /\ (length rest <= 2)%nat).
Proof.
  rewrite access_lazy, lazy_unfold. intros H. split; intros Ht;
    rewrite Ht in H.
  - inversion H; split; reflexivity.
  - rewrite _populate_unfold in H.
    destruct (get_activity_details env (activity_id (self h)) h)
      as [[d|e] h1] eqn:H1;
      destruct (get_activity_details_effect _ _ _ _ _ H1) as (R1 & _).
    + destruct (get_activity_datetime env (activity_id (self h1)) h1)
        as [[t|e] h2] eqn:H2;
        destruct (get_activity_datetime_effect _ _ _ _ _ H2)
          as ((l & R2 & Hl) & _).
      * exists l. split; [|exact Hl].
        assert (E : requests h' = requests h2)
          by (destruct d; inversion H; reflexivity).
        rewrite E, R2, R1, <- app_assoc. reflexivity.
      * inversion H; subst h'. exists l. split; [|exact Hl].
        rewrite R2, R1, <- app_assoc. reflexivity.
    + inversion H; subst h'. exists []. split; [exact R1 | simpl; lia].
Qed.

Lemma access_request_count_witness :
  exists rest,
    requests (snd (access (Sample.env 0) Calories Sample.zero_activity_read))
    = (requests Sample.zero_activity_read
         ++ details_request (_runkeeper Sample.zero_activity_read)
              (activity_id (self Sample.zero_activity_read)) :: rest)%list
    /\ (length rest <= 2)%nat.
Proof.
  exact (proj2 (access_request_count (Sample.env 0) Calories
                  Sample.zero_activity_read
                  (fst (access (Sample.env 0) Calories
                          Sample.zero_activity_read))
                  (snd (access (Sample.env 0) Calories
                          Sample.zero_activity_read))
                  (surjective_pairing _)) eq_refl).
Defined.

(** A read of a property raises nothing but [EndpointConnectionError],
    [InvalidActivityId], [ParserRejectedMarkup], [ProfileNotFound],
    [AttributeError], [TypeError], [IndexError] and [ValueError]: markup
    the parser rejects, a page without the subtitle element, a tag among
    the children of the subtitle and a subtitle that does not parse all
    come out as the bare exception of the library or the builtin, not as
    one of the module's own. *)
Theorem access_exceptions_only env p h e h' :
  access env p h = (Raise e, h') -> In e access_exceptions.
Proof.
  rewrite access_lazy, lazy_unfold.
  destruct (truthy (cache p (self h))); [discriminate|].
  rewrite _populate_unfold.
  destruct (get_activity_details env (activity_id (self h)) h)
    as [[d|x] h1] eqn:H1.
  - destruct (get_activity_datetime env (activity_id (self h1)) h1)
      as [[t|x] h2] eqn:H2.
    + destruct d; intros H; inversion H; subst; simpl; auto 6.
    + intros H; inversion H; subst.
      destruct (proj2 (get_activity_datetime_effect _ _ _ _ _ H2) _ eq_refl)
        as [<-|[<-|[<-|[<-|[<-|[<-|[<-|[]]]]]]]]; simpl; auto 9.
  - intros H; inversion H; subst.
    destruct (proj2 (proj2 (proj2 (get_activity_details_effect _ _ _ _ _ H1)))
                _ eq_refl) as [-> | ->]; simpl; auto.
Qed.

Lemma access_exceptions_only_witness :
  fst (access Cases.env_no_subtitle Datetime Sample.activity)
  = Raise TypeError /\
  fst (access Cases.env_split_inside Datetime Sample.activity)
  = Raise IndexError /\
  fst (access Cases.env_page_rejected Datetime Sample.activity)
  = Raise ParserRejectedMarkup /\
  In IndexError access_exceptions.
Proof.
  split; [reflexivity|]. split; [reflexivity|]. split; [reflexivity|].
  exact (access_exceptions_only Cases.env_split_inside Datetime Sample.activity
           IndexError
           (snd (access Cases.env_split_inside Datetime Sample.activity))
           eq_refl).
Defined.

(** On a record with its caches unset, the value a first read of a property
    returns is the value of the cache that [_populate] filled: the detail
    body was a JSON object, the four statistics are what its [get] gives
    for [statsCalories], [statsElevation], [statsPace] and [statsSpeed],
    untransformed ([None] for a missing key), and the timestamp is a
    [datetime]. *)
Theorem access_returns_detail_values env h p v h1 :
  unset (self h) ->
  access env p h = (Ok v, h1) ->
  exists resp kvs d,
    answer env (_runkeeper h)
      (details_request (_runkeeper h) (activity_id (self h))) = Some resp /\
    json resp = Some (PyDict kvs) /\
    self h1 = populated kvs (PyDateTime d) (self h) /\
    v = cache p (populated kvs (PyDateTime d) (self h)).
Proof.
  intros Hunset H. rewrite access_lazy, lazy_unfold, (Hunset p) in H.
  cbn [truthy] in H.
  destruct (_populate env h) as [[[]|e] h'] eqn:Hp; [|discriminate].
  inversion H; subst h' v; clear H.
  rewrite _populate_unfold in Hp.
  destruct (get_activity_details env (activity_id (self h)) h)
    as [[x|e] ha] eqn:H1; [|discriminate].
  destruct (get_activity_datetime env (activity_id (self ha)) ha)
    as [[t|e] hb] eqn:H2; [|discriminate].
  destruct x; try discriminate. inversion Hp; subst h1; clear Hp.
  destruct (get_activity_datetime_returns _ _ _ _ _ H2) as [d ->].
  pose proof (get_activity_datetime_self _ _ _ _ _ H2) as E2.
  pose proof (get_activity_details_self _ _ _ _ _ H1) as E1.
  rewrite get_activity_details_unfold in H1. cbv zeta in H1.
  destruct (answer env _ _) as [resp|]; [|discriminate].
  destruct (json resp) as [j|] eqn:Hj; [|discriminate].
  inversion H1; subst j.
  exists resp, kvs, d. simpl. rewrite E2, E1. repeat split.
  assumption.
Qed.

Lemma access_returns_detail_values_witness :
  exists resp kvs d,
    answer (Sample.env 120) (_runkeeper Sample.activity)
      (details_request (_runkeeper Sample.activity)
         (activity_id (self Sample.activity))) = Some resp /\
    json resp = Some (PyDict kvs) /\
    self (snd (access (Sample.env 120) Pace Sample.activity))
    = populated kvs (PyDateTime d) (self Sample.activity) /\
    PyStr "5:30" = cache Pace (populated kvs (PyDateTime d)
                                 (self Sample.activity)).
Proof.
  refine (access_returns_detail_values (Sample.env 120) Sample.activity Pace
            (PyStr "5:30") _ _ eq_refl).
  intros []; reflexivity.
Defined.

(** On a record with its caches unset whose manager has a non-empty profile
    identifier cached, a first read of a property that returns has issued
    exactly two requests, in this order: the [GET] of the point-data URL
    with the record's activity id as [activityId], then the [GET] of
    [<site>/user/<profile>/activity/<activity id>]. *)
Theorem first_access_requests env h p v h1 :
  unset (self h) ->
  __profile_username (_runkeeper h) <> "" ->
  access env p h = (Ok v, h1) ->
  exists resp,
    answer env (_runkeeper h)
      (details_request (_runkeeper h) (activity_id (self h))) = Some resp /\
    requests h1
    = (requests h
         ++ [details_request (_runkeeper h) (activity_id (self h));
             datetime_request env
               (after_answer (_runkeeper h)
                  (details_request (_runkeeper h) (activity_id (self h)))
                  resp)
               (activity_id (self h))])%list.
Proof.
  intros Hunset Hc H. rewrite access_lazy, lazy_unfold, (Hunset p) in H.
  cbn [truthy] in H.
  destruct (_populate env h) as [[[]|e] h'] eqn:Hp; [|discriminate].
  inversion H; subst h' v; clear H.
  rewrite _populate_unfold in Hp.
  rewrite get_activity_details_unfold in Hp. cbv zeta in Hp.
  destruct (answer env _ _) as [resp|]; [|discriminate].
  exists resp. split; [reflexivity|].
  destruct (json resp) as [j|]; [|discriminate].
  rewrite get_activity_datetime_unfold in Hp. cbn [_runkeeper self set__runkeeper] in Hp.
  set (rk1 := after_answer (_runkeeper h)
                (details_request (_runkeeper h) (activity_id (self h))) resp)
    in *.
  assert (Hc1 : __profile_username rk1 <> "") by exact Hc.
  rewrite (profile_username_hit env rk1 Hc1) in Hp. cbv zeta in Hp.
  destruct (answer env rk1 _) as [resp2|]; [|discriminate].
  destruct (soup resp2) as [document|]; [|discriminate].
  destruct (subtitle document) as [children|]; [|discriminate].
  destruct (date_parts children) as [parts|]; [|discriminate].
  destruct (strptime env (join parts)); [|discriminate].
  destruct j; try discriminate. inversion Hp; subst h1.
  unfold requests. simpl. rewrite <- app_assoc. reflexivity.
Qed.

Lemma first_access_requests_witness :
  exists resp,
    answer (Sample.env 120) (_runkeeper Sample.activity)
      (details_request (_runkeeper Sample.activity)
         (activity_id (self Sample.activity))) = Some resp /\
    requests (snd (access (Sample.env 120) Elevation Sample.activity))
    = (requests Sample.activity
         ++ [details_request (_runkeeper Sample.activity)
               (activity_id (self Sample.activity));
             datetime_request (Sample.env 120)
               (after_answer (_runkeeper Sample.activity)
                  (details_request (_runkeeper Sample.activity)
                     (activity_id (self Sample.activity)))
                  resp)
               (activity_id (self Sample.activity))])%list.
Proof.
  refine (first_access_requests (Sample.env 120) Sample.activity Elevation
            (PyInt 5) _ _ _ eq_refl).
  - intros []; reflexivity.
  - discriminate.
Defined.

(** ** The library error paths on the sample site *)

(** Two cookies named [checker] in the answer to the [POST]: the lookup by
    name raises, outside any [try]. *)
Example two_checker_cookies_conflict :
  fst (Runkeeper__init__ Cases.env_two_checkers "jane@example.org" "secret")
  = Raise CookieConflictError.
Proof. reflexivity. Qed.

(** Markup the parser rejects, on the home page. *)
Example rejected_home_page :
  fst (get_activities_month Cases.env_home_rejected "Jan" None Sample.manager)
  = Raise ParserRejectedMarkup.
Proof. reflexivity. Qed.
